(** * The Lemon Squeezy webhook handler, in its three versions

    The repository holds one serverless function, [handler], in three
    successive versions:

    - [RawBody]  : src/api/webhook.js, first document (lines 1-104); it
      disables the host's body parser and reads the request stream itself;
    - [Lenient]  : src/api/webhook.js, second document (lines 105-268); it
      signs a re-serialisation of the parsed body and lets a request without
      a signature through;
    - [Strict]   : src/unnamed/part_000; it signs a re-serialisation of the
      parsed body and refuses a request without a signature or a secret.

    Each version is embedded as a function in a state-and-exception monad
    over the users collection.  What the handlers call in the platform
    (node's crypto and Buffer, JSON, the document store client) is modelled
    in the first modules of the file. *)

From Stdlib Require Import ZArith Ascii String DecimalString.
From stdpp Require Import base gmap strings list.
Local Open Scope Z_scope.

(** ** Bytes and strings

    A JavaScript string is carried as the [string] of its UTF-8 bytes, so
    that [Buffer.from(s)] is the list of its characters' codes.  A [Buffer]
    is a list of bytes, each an integer below 256. *)

Module Buffer.

Definition bytes := list Z.

Definition byte_of_ascii (c : ascii) : Z := Z.of_N (N_of_ascii c).
Definition ascii_of_byte (b : Z) : ascii := ascii_of_N (Z.to_N (b mod 256)).

(** [Buffer.from(s)], the default encoding being utf8. *)
Fixpoint from (s : string) : bytes :=
  match s with
  | EmptyString => []
  | String c s' => byte_of_ascii c :: from s'
  end.

(** The string whose bytes are [l]. *)
Fixpoint of_bytes (l : bytes) : string :=
  match l with
  | [] => EmptyString
  | b :: l' => String (ascii_of_byte b) (of_bytes l')
  end.

(** The bytes of U+FFFD, which stands for what is not UTF-8. *)
Definition replacement : bytes := [239; 191; 189].

(** The first byte of a character: what it gives at once, and what it
    leaves awaited, which is the bytes read so far, the number of bytes to
    come and the bounds of the next one. *)
Definition lead (b : Z) : bytes * (bytes * Z * Z * Z) :=
  if b <? 128 then ([b], ([], 0, 128, 191))
  else if (194 <=? b) && (b <=? 223) then ([], ([b], 1, 128, 191))
  else if (224 <=? b) && (b <=? 239) then
    ([], ([b], 2, (if b =? 224 then 160 else 128), (if b =? 237 then 159 else 191)))
  else if (240 <=? b) && (b <=? 244) then
    ([], ([b], 3, (if b =? 240 then 144 else 128), (if b =? 244 then 143 else 191)))
  else (replacement, ([], 0, 128, 191)).

(** The decoding of UTF-8: a byte that cannot go on the character that is
    being read ends it, gives U+FFFD for it, and is read again as a first
    byte; so does the end of the buffer. *)
Fixpoint decode (seen : bytes) (needed lower upper : Z) (l : bytes) : bytes :=
  match l with
  | [] => if needed =? 0 then [] else replacement
  | b :: l' =>
      if (0 <? needed) && (lower <=? b) && (b <=? upper) then
        if needed =? 1 then seen ++ [b] ++ decode [] 0 128 191 l'
        else decode (seen ++ [b]) (needed - 1) 128 191 l'
      else
        let '(out, (seen', needed', lower', upper')) := lead b in
        (if 0 <? needed then replacement else []) ++ out
          ++ decode seen' needed' lower' upper' l'
  end.

(** [buf.toString()], the encoding being utf8. *)
Definition toString (l : bytes) : string := of_bytes (decode [] 0 128 191 l).

(** [Buffer.concat(chunks)]. *)
Definition concat (chunks : list bytes) : bytes := List.concat chunks.

Definition hex_digit (n : Z) : ascii :=
  if n <? 10 then ascii_of_byte (48 + n) else ascii_of_byte (87 + n).

(** [buf.toString('hex')]: two lowercase digits per byte. *)
Fixpoint to_hex (l : bytes) : string :=
  match l with
  | [] => EmptyString
  | b :: l' => String (hex_digit (b / 16)) (String (hex_digit (b mod 16)) (to_hex l'))
  end.

(** The value of a hexadecimal digit, of either case. *)
Definition hex_value (c : ascii) : option Z :=
  let n := byte_of_ascii c in
  if (48 <=? n) && (n <=? 57) then Some (n - 48)
  else if (97 <=? n) && (n <=? 102) then Some (n - 87)
  else if (65 <=? n) && (n <=? 70) then Some (n - 55)
  else None.

(** [Buffer.from(s, 'hex')]: pairs of digits are decoded until the first
    pair that is not hexadecimal; the rest of the string, or a trailing
    single digit, is dropped. *)
Fixpoint from_hex (s : string) : bytes :=
  match s with
  | String c1 (String c2 s') =>
      match hex_value c1, hex_value c2 with
      | Some h, Some l => (16 * h + l) :: from_hex s'
      | _, _ => []
      end
  | _ => []
  end.

Definition is_byte (b : Z) : Prop := 0 <= b < 256.

End Buffer.

(** ** SHA-256 and HMAC (FIPS 180-4, RFC 2104)

    [crypto.createHmac('sha256', key).update(data).digest('hex')]. *)

Module Crypto.

Import Buffer.

Definition wrap32 (x : Z) : Z := x mod 2 ^ 32.
Definition add32 (x y : Z) : Z := wrap32 (x + y).
Definition rotr (n x : Z) : Z :=
  Z.lor (Z.shiftr x n) (wrap32 (Z.shiftl x (32 - n))).
Definition not32 (x : Z) : Z := Z.lxor x (2 ^ 32 - 1).

Definition Ch (x y z : Z) : Z := Z.lxor (Z.land x y) (Z.land (not32 x) z).
Definition Maj (x y z : Z) : Z :=
  Z.lxor (Z.lxor (Z.land x y) (Z.land x z)) (Z.land y z).
Definition Sum0 (x : Z) : Z := Z.lxor (Z.lxor (rotr 2 x) (rotr 13 x)) (rotr 22 x).
Definition Sum1 (x : Z) : Z := Z.lxor (Z.lxor (rotr 6 x) (rotr 11 x)) (rotr 25 x).
Definition sig0 (x : Z) : Z := Z.lxor (Z.lxor (rotr 7 x) (rotr 18 x)) (Z.shiftr x 3).
Definition sig1 (x : Z) : Z := Z.lxor (Z.lxor (rotr 17 x) (rotr 19 x)) (Z.shiftr x 10).

(** The round constants are the first 32 bits of the fractional parts of the
    cube roots of the first 64 primes, the initial hash value those of the
    square roots of the first 8: they are computed here rather than listed. *)
Definition is_prime (p : Z) : bool :=
  forallb (fun d => negb (p mod d =? 0)) (map Z.of_nat (seq 2 (Z.to_nat p - 2))).

Definition first_primes (n : nat) : list Z :=
  firstn n (filter is_prime (map Z.of_nat (seq 2 400))).

Fixpoint cube_root (fuel : nat) (lo hi x : Z) : Z :=
  match fuel with
  | O => lo
  | S fuel' =>
      if hi - lo <=? 1 then lo
      else let mid := (lo + hi) / 2 in
           if mid * mid * mid <=? x then cube_root fuel' mid hi x
           else cube_root fuel' lo mid x
  end.

Definition round_constants : list Z :=
  Eval vm_compute in
    map (fun p => wrap32 (cube_root 64 0 (2 ^ 36) (p * 2 ^ 96))) (first_primes 64).

Record hash_state := Hash {
  ha : Z; hb : Z; hc : Z; hd : Z; he : Z; hf : Z; hg : Z; hh : Z
}.

Definition initial_hash : hash_state :=
  Eval vm_compute in
    match map (fun p => wrap32 (Z.sqrt (p * 2 ^ 64))) (first_primes 8) with
    | [a; b; c; d; e; f; g; h] => Hash a b c d e f g h
    | _ => Hash 0 0 0 0 0 0 0 0
    end.

(** One round, on the working variables, with constant [k] and schedule
    word [w]. *)
Definition round (s : hash_state) (k w : Z) : hash_state :=
  let t1 := add32 (add32 (add32 (add32 (hh s) (Sum1 (he s))) (Ch (he s) (hf s) (hg s))) k) w in
  let t2 := add32 (Sum0 (ha s)) (Maj (ha s) (hb s) (hc s)) in
  Hash (add32 t1 t2) (ha s) (hb s) (hc s) (add32 (hd s) t1) (he s) (hf s) (hg s).

(** The sixty-four rounds; [win] holds the sixteen schedule words from the
    current one on, and slides by one word per round. *)
Fixpoint rounds (ks : list Z) (win : list Z) (s : hash_state) : hash_state :=
  match ks with
  | [] => s
  | k :: ks' =>
      let w := nth 0 win 0 in
      let next := add32 (add32 (add32 (sig1 (nth 14 win 0)) (nth 9 win 0))
                                (sig0 (nth 1 win 0))) w in
      rounds ks' (tl win ++ [next]) (round s k w)
  end.

Definition compress (s : hash_state) (block : list Z) : hash_state :=
  let r := rounds round_constants block s in
  Hash (add32 (ha s) (ha r)) (add32 (hb s) (hb r)) (add32 (hc s) (hc r))
       (add32 (hd s) (hd r)) (add32 (he s) (he r)) (add32 (hf s) (hf r))
       (add32 (hg s) (hg r)) (add32 (hh s) (hh r)).

(** Big-endian words of a byte list, four bytes each. *)
Fixpoint words_of (n : nat) (l : bytes) : list Z :=
  match n with
  | O => []
  | S n' =>
      match l with
      | b0 :: b1 :: b2 :: b3 :: l' =>
          (((b0 * 256 + b1) * 256 + b2) * 256 + b3) :: words_of n' l'
      | _ => []
      end
  end.

Definition word_bytes (x : Z) : bytes :=
  [(x / 2 ^ 24) mod 256; (x / 2 ^ 16) mod 256; (x / 2 ^ 8) mod 256; x mod 256].

Definition pad (msg : bytes) : bytes :=
  let len := Z.of_nat (length msg) in
  msg ++ [128] ++ repeat 0 (Z.to_nat ((55 - len) mod 64))
      ++ word_bytes (len * 8 / 2 ^ 32) ++ word_bytes (len * 8).

Fixpoint blocks (n : nat) (l : bytes) (s : hash_state) : hash_state :=
  match n with
  | O => s
  | S n' => blocks n' (skipn 64 l) (compress s (words_of 16 l))
  end.

Definition digest_bytes (s : hash_state) : bytes :=
  word_bytes (ha s) ++ word_bytes (hb s) ++ word_bytes (hc s) ++ word_bytes (hd s)
  ++ word_bytes (he s) ++ word_bytes (hf s) ++ word_bytes (hg s) ++ word_bytes (hh s).

Definition sha256 (msg : bytes) : bytes :=
  let p := pad msg in
  digest_bytes (blocks (length p / 64) p initial_hash).

(** [createHmac('sha256', key).update(data).digest()]. *)
Definition hmac_sha256 (key data : bytes) : bytes :=
  let k := if (64 <? Z.of_nat (length key)) then sha256 key else key in
  let k := k ++ repeat 0 (64 - length k) in
  sha256 (map (Z.lxor 92) k ++ sha256 (map (Z.lxor 54) k ++ data)).

(** [createHmac('sha256', secret).update(data).digest('hex')]. *)
Definition hmac_hex (secret : string) (data : bytes) : string :=
  to_hex (hmac_sha256 (from secret) data).

#[global] Arguments sha256 : simpl never.
#[global] Arguments hmac_sha256 : simpl never.
#[global] Arguments hmac_hex : simpl never.

End Crypto.

(** ** Numbers

    A number that a JSON text denotes, as JavaScript holds it: the double
    nearest to the decimal of the text, and its shortest decimal when it is
    written again ([JSON.parse] and [Number::toString]). *)

Module Number.

(** A double that is a zero, finite or infinite.  [Finite s q e] is
    [q * 2^e], of sign [s], with [2^52 <= q < 2^53] and [-1074 <= e <= 971],
    or with [0 < q < 2^52] and [e = -1074]. *)
Inductive number : Type :=
| Zero (negative : bool)
| Finite (negative : bool) (q : Z) (e : Z)
| Infinite (negative : bool).

(** The integer nearest to [n / d], the even one of two. *)
Definition nearest (n d : Z) : Z :=
  let q := n / d in
  let r := n mod d in
  if 2 * r <? d then q
  else if d <? 2 * r then q + 1
  else if Z.even q then q else q + 1.

(** [n / d * 2^(-e)], as a fraction. *)
Definition scaled (n d e : Z) : Z * Z :=
  if 0 <=? e then (n, d * 2 ^ e) else (n * 2 ^ (- e), d).

(** The double nearest to [n / d], for positive [n] and [d]. *)
Definition of_fraction (negative : bool) (n d : Z) : number :=
  let l := Z.log2 n - Z.log2 d in
  let '(n1, d1) := scaled n d l in
  let l := if n1 <? d1 then l - 1 else l in
  let e := Z.max (l - 52) (-1074) in
  let '(n2, d2) := scaled n d e in
  let q := nearest n2 d2 in
  let '(q, e) := if q =? 2 ^ 53 then (2 ^ 52, e + 1) else (q, e) in
  if 971 <? e then Infinite negative
  else if q =? 0 then Zero negative
  else Finite negative q e.

Fixpoint count_digits (fuel : nat) (m : Z) : Z :=
  match fuel with
  | O => 0
  | S fuel' => if m <? 10 then 1 else 1 + count_digits fuel' (m / 10)
  end.

(** The number of decimal digits of [m]. *)
Definition width (m : Z) : Z := count_digits (S (Z.to_nat (Z.log2 m))) m.

(** The double nearest to [m * 10^e10]. *)
Definition of_decimal (negative : bool) (m e10 : Z) : number :=
  if m =? 0 then Zero negative
  else if 310 <? width m + e10 then Infinite negative
  else if width m + e10 <? -330 then Zero negative
  else if 0 <=? e10 then of_fraction negative (m * 10 ^ e10) 1
  else of_fraction negative m (10 ^ (- e10)).

(** [q * 2^e] against [10^t]. *)
Definition below_power (q e t : Z) : bool :=
  let '(n, d) := scaled q 1 (- e) in
  if 0 <=? t then n <? d * 10 ^ t else n * 10 ^ (- t) <? d.

Fixpoint raise (fuel : nat) (q e t : Z) : Z :=
  match fuel with
  | O => t
  | S fuel' => if below_power q e t then t else raise fuel' q e (t + 1)
  end.

Fixpoint lower (fuel : nat) (q e t : Z) : Z :=
  match fuel with
  | O => t
  | S fuel' => if below_power q e (t - 1) then lower fuel' q e (t - 1) else t
  end.

(** The [n] with [10^(n-1) <= q * 2^e < 10^n]. *)
Definition magnitude (q e : Z) : Z :=
  let t := (Z.log2 q + e) * 30103 / 100000 in
  lower 4 q e (raise 4 q e t).

(** The digits [s] and the exponent [n] of the shortest decimal
    [s * 10^(n-k)], of [k] digits, that denotes the double [q * 2^e]; of two
    such decimals the nearer one, and of two as near the even one. *)
Fixpoint shortest (fuel : nat) (k : Z) (q e n : Z) : Z * Z :=
  match fuel with
  | O => (0, n)
  | S fuel' =>
      let p := n - k in
      let '(vn, vd) := scaled q 1 (- e) in
      let '(vn, vd) := if 0 <=? p then (vn, vd * 10 ^ p) else (vn * 10 ^ (- p), vd) in
      let lo := vn / vd in
      let hi := lo + 1 in
      let holds s := match of_decimal false s p with
                     | Finite _ q' e' => (q' =? q) && (e' =? e)
                     | _ => false
                     end in
      let lo_holds := (0 <? lo) && holds lo in
      let hi_holds := holds hi in
      let nearer_lo :=
        let twice := 2 * vn in
        let middle := (2 * lo + 1) * vd in
        (twice <? middle) || ((twice =? middle) && Z.even lo) in
      let pick s := if s =? 10 ^ k then (10 ^ (k - 1), n + 1) else (s, n) in
      if lo_holds && hi_holds then (if nearer_lo then pick lo else pick hi)
      else if lo_holds then pick lo
      else if hi_holds then pick hi
      else shortest fuel' (k + 1) q e n
  end.

Fixpoint strip (fuel : nat) (s : Z) : Z :=
  match fuel with
  | O => s
  | S fuel' => if (s mod 10 =? 0) && negb (s =? 0) then strip fuel' (s / 10) else s
  end.

Definition decimal (n : Z) : string := NilZero.string_of_int (Z.to_int n).

Fixpoint zeros (n : nat) : string :=
  match n with
  | O => EmptyString
  | S n' => String "0" (zeros n')
  end.

(** [Number::toString(x)], in radix 10. *)
Definition to_string (x : number) : string :=
  match x with
  | Zero _ => "0"
  | Infinite negative => if negative then "-Infinity" else "Infinity"
  | Finite negative q e =>
      let '(s, n) := shortest 17 1 q e (magnitude q e) in
      let s := strip 17 s in
      let digits := decimal s in
      let k := Z.of_nat (String.length digits) in
      let text :=
        if (k <=? n) && (n <=? 21) then digits +:+ zeros (Z.to_nat (n - k))
        else if (0 <? n) && (n <=? 21) then
          substring 0 (Z.to_nat n) digits +:+ "." +:+ substring (Z.to_nat n) (Z.to_nat (k - n)) digits
        else if (-6 <? n) && (n <=? 0) then "0." +:+ zeros (Z.to_nat (- n)) +:+ digits
        else
          let exponent := (if 0 <=? n - 1 then "+" else "-") +:+ decimal (Z.abs (n - 1)) in
          if k =? 1 then digits +:+ "e" +:+ exponent
          else substring 0 1 digits +:+ "." +:+ substring 1 (Z.to_nat (k - 1)) digits
               +:+ "e" +:+ exponent in
      if negative then "-" +:+ text else text
  end.

Definition is_zero (x : number) : bool :=
  match x with
  | Zero _ => true
  | _ => false
  end.

Definition is_finite (x : number) : bool :=
  match x with
  | Infinite _ => false
  | _ => true
  end.

End Number.

(** ** JavaScript values, property reads and exceptions *)

Module JS.

(** The values a JSON text denotes, and [undefined]. *)
#[warnings="-register-all"]
Inductive value : Type :=
| VUndefined
| VNull
| VBool (b : bool)
| VNum (x : Number.number)
| VStr (s : string)
| VArr (items : list value)
| VObj (fields : list (string * value)).

Inductive error : Type :=
| TypeError (message : string)
| RangeError (message : string)
| SyntaxError (message : string)
| StoreError (message : string).

Definition message (e : error) : string :=
  match e with
  | TypeError m | RangeError m | SyntaxError m | StoreError m => m
  end.

(** What evaluating an expression gives: a value, or a thrown exception. *)
Inductive outcome (A : Type) : Type :=
| Return (a : A)
| Throw (e : error).
Arguments Return {A} a.
Arguments Throw {A} e.

(** The own property [k] of an object literal. *)
Fixpoint own (fields : list (string * value)) (k : string) : value :=
  match fields with
  | [] => VUndefined
  | (k', v) :: rest => if String.eqb k' k then v else own rest k
  end.

(** [obj[k] = v]: an existing property keeps its place. *)
Fixpoint assign (fields : list (string * value)) (k : string) (v : value)
  : list (string * value) :=
  match fields with
  | [] => [(k, v)]
  | (k', v') :: rest =>
      if String.eqb k' k then (k', v) :: rest else (k', v') :: assign rest k v
  end.

(** [v.k], for a key that no prototype defines (the handlers read meta,
    data, event_name, attributes, id, status, user_email, first_order_item
    and product_name): reading a property of [undefined] or [null] throws,
    a primitive or an array has no such property. *)
Definition get (v : value) (k : string) : outcome value :=
  match v with
  | VUndefined => Throw (TypeError ("Cannot read properties of undefined (reading '" +:+ k +:+ "')"))
  | VNull => Throw (TypeError ("Cannot read properties of null (reading '" +:+ k +:+ "')"))
  | VObj fields => Return (own fields k)
  | _ => Return VUndefined
  end.

(** [v?.k]. *)
Definition get_opt (v : value) (k : string) : value :=
  match v with
  | VObj fields => own fields k
  | _ => VUndefined
  end.

(** Truth of a value, as [!v], [a || b] and [if (v)] see it. *)
Definition truthy (v : value) : bool :=
  match v with
  | VUndefined | VNull => false
  | VBool b => b
  | VNum x => negb (Number.is_zero x)
  | VStr s => negb (String.eqb s "")
  | VArr _ | VObj _ => true
  end.

(** Truth of a header or of an environment variable: a string, or
    [undefined]. *)
Definition truthy_string (s : option string) : bool :=
  match s with
  | Some s => negb (String.eqb s "")
  | None => false
  end.

(** [v === 'literal']. *)
Definition is_string (v : value) (literal : string) : bool :=
  match v with
  | VStr s => String.eqb s literal
  | _ => false
  end.

(** [a || b]. *)
Definition or_else (a b : value) : value := if truthy a then a else b.

Definition lower (c : ascii) : ascii :=
  let n := Buffer.byte_of_ascii c in
  if (65 <=? n) && (n <=? 90) then Buffer.ascii_of_byte (n + 32) else c.

(** [s.toLowerCase()], on the letters A to Z; no character outside them
    has a lower case among the letters of "yearly". *)
Fixpoint toLowerCase (s : string) : string :=
  match s with
  | EmptyString => EmptyString
  | String c s' => String (lower c) (toLowerCase s')
  end.

(** [s.includes(sub)]. *)
Fixpoint includes (s sub : string) : bool :=
  if String.prefix sub s then true
  else match s with
       | EmptyString => false
       | String _ s' => includes s' sub
       end.

(** [v.toLowerCase()] on a value that is not [undefined] or [null]: only
    a string has the method. *)
Definition call_toLowerCase (v : value) : outcome string :=
  match v with
  | VStr s => Return (toLowerCase s)
  | VUndefined | VNull => Throw (TypeError "Cannot read properties of undefined (reading 'toLowerCase')")
  | _ => Throw (TypeError "productName.toLowerCase is not a function")
  end.

End JS.

(** ** JSON.stringify and JSON.parse *)

Module JSON.

Import JS.

(** The string of one double quote. *)
Definition double_quote : string := String "034" EmptyString.

Definition hex4 (n : Z) : string :=
  String (Buffer.hex_digit (n / 4096 mod 16)) (String (Buffer.hex_digit (n / 256 mod 16))
    (String (Buffer.hex_digit (n / 16 mod 16)) (String (Buffer.hex_digit (n mod 16)) ""))).

Definition escape (c : ascii) : string :=
  let n := Buffer.byte_of_ascii c in
  if n =? 34 then String "\" double_quote
  else if n =? 92 then "\\"
  else if n =? 8 then "\b"
  else if n =? 9 then "\t"
  else if n =? 10 then "\n"
  else if n =? 12 then "\f"
  else if n =? 13 then "\r"
  else if n <? 32 then "\u" +:+ hex4 n
  else String c "".

(** The code unit of a surrogate that stands alone, of bytes [b1], [b2]
    and [b3]. *)
Definition lone_surrogate (b1 b2 b3 : Z) : option Z :=
  if (b1 =? 237) && (160 <=? b2) && (b2 <=? 191) && (128 <=? b3) && (b3 <=? 191)
  then Some (53248 + (b2 - 128) * 64 + (b3 - 128))
  else None.

(** The characters of a string, each escaped as it has to be; a surrogate
    that stands alone is written as its escape. *)
Fixpoint escape_all (s : string) : string :=
  match s with
  | EmptyString => EmptyString
  | String c s' =>
      match s' with
      | String c2 (String c3 s'') =>
          match lone_surrogate (Buffer.byte_of_ascii c) (Buffer.byte_of_ascii c2)
                  (Buffer.byte_of_ascii c3) with
          | Some unit => "\u" +:+ hex4 unit +:+ escape_all s''
          | None => escape c +:+ escape_all s'
          end
      | _ => escape c +:+ escape_all s'
      end
  end.

Definition quote (s : string) : string :=
  double_quote +:+ escape_all s +:+ double_quote.

(** The number that a key is, when it is an array index: a decimal with
    no zero at its head, below 2^32 - 1. *)
Fixpoint decimal_value (s : string) (acc : Z) : option Z :=
  match s with
  | EmptyString => Some acc
  | String c s' =>
      let n := Buffer.byte_of_ascii c in
      if (48 <=? n) && (n <=? 57) then decimal_value s' (acc * 10 + (n - 48)) else None
  end.

Definition array_index (key : string) : option Z :=
  match key with
  | EmptyString => None
  | String "0" EmptyString => Some 0
  | String "0" _ => None
  | _ =>
      n ← decimal_value key 0;
      if (11 <=? Z.of_nat (String.length key)) || (4294967295 <=? n) then None else Some n
  end.

(** The properties of an object in their order: those whose key is an
    array index, by index, and then the others as they were created. *)
Fixpoint insert_index {A : Type} (n : Z) (x : A) (l : list (Z * A)) : list (Z * A) :=
  match l with
  | [] => [(n, x)]
  | (m, y) :: l' => if n <? m then (n, x) :: l else (m, y) :: insert_index n x l'
  end.

Fixpoint indexed {A : Type} (l : list (string * A)) : list (Z * A) :=
  match l with
  | [] => []
  | (k, x) :: l' =>
      match array_index k with
      | Some n => insert_index n x (indexed l')
      | None => indexed l'
      end
  end.

Definition in_property_order {A : Type} (l : list (string * A)) : list A :=
  map snd (indexed l)
  ++ map snd (filter (fun kx => bool_decide (array_index (fst kx) = None)) l).

Fixpoint join (sep : string) (l : list string) : string :=
  match l with
  | [] => ""
  | [x] => x
  | x :: l' => x +:+ sep +:+ join sep l'
  end.

(** [JSON.stringify(v)]: no white space, properties in their order, a
    property whose value is [undefined] left out, [undefined] in an array
    written null; the result is [undefined] for [undefined].  A number is
    written as [Number::toString] writes it, and null when it is not
    finite; properties are written in their order, those whose key is an
    array index first. *)
Fixpoint stringify (v : value) : option string :=
  match v with
  | VUndefined => None
  | VNull => Some "null"
  | VBool b => Some (if b then "true" else "false")
  | VNum x => Some (if Number.is_finite x then Number.to_string x else "null")
  | VStr s => Some (quote s)
  | VArr items =>
      let fix elements (l : list value) : list string :=
        match l with
        | [] => []
        | x :: l' => default "null" (stringify x) :: elements l'
        end in
      Some ("[" +:+ join "," (elements items) +:+ "]")
  | VObj fields =>
      let fix members (l : list (string * value)) : list (string * string) :=
        match l with
        | [] => []
        | (k, x) :: l' =>
            match stringify x with
            | Some t => (k, quote k +:+ ":" +:+ t) :: members l'
            | None => members l'
            end
        end in
      Some ("{" +:+ join "," (in_property_order (members fields)) +:+ "}")
  end.

Definition is_space (c : ascii) : bool :=
  let n := Buffer.byte_of_ascii c in
  (n =? 32) || (n =? 9) || (n =? 10) || (n =? 13).

Fixpoint skip_space (s : string) : string :=
  match s with
  | String c s' => if is_space c then skip_space s' else s
  | EmptyString => s
  end.

Definition code_unit (c1 c2 c3 c4 : ascii) : option Z :=
  h1 ← Buffer.hex_value c1; h2 ← Buffer.hex_value c2;
  h3 ← Buffer.hex_value c3; h4 ← Buffer.hex_value c4;
  Some (((h1 * 16 + h2) * 16 + h3) * 16 + h4).

(** The UTF-8 bytes of a code point; a surrogate that stands alone is kept,
    in the three bytes of its code. *)
Definition utf8 (cp : Z) : string :=
  Buffer.of_bytes
    (if cp <? 128 then [cp]
     else if cp <? 2048 then [192 + cp / 64; 128 + cp mod 64]
     else if cp <? 65536 then [224 + cp / 4096; 128 + cp / 64 mod 64; 128 + cp mod 64]
     else [240 + cp / 262144; 128 + cp / 4096 mod 64; 128 + cp / 64 mod 64; 128 + cp mod 64]).

Definition simple_escape (c : ascii) : option string :=
  let n := Buffer.byte_of_ascii c in
  if n =? 34 then Some double_quote
  else if n =? 92 then Some "\"
  else if n =? 47 then Some "/"
  else if n =? 98 then Some (Buffer.of_bytes [8])
  else if n =? 102 then Some (Buffer.of_bytes [12])
  else if n =? 110 then Some (Buffer.of_bytes [10])
  else if n =? 114 then Some (Buffer.of_bytes [13])
  else if n =? 116 then Some (Buffer.of_bytes [9])
  else None.

Definition prepend (p : string) (r : option (string * string)) : option (string * string) :=
  '(s, rest) ← r; Some (p +:+ s, rest).

(** The characters of a string literal after its opening quote, and what
    follows its closing quote. *)
Fixpoint string_literal (s : string) : option (string * string) :=
  match s with
  | EmptyString => None
  | String c r =>
      let n := Buffer.byte_of_ascii c in
      if n =? 34 then Some ("", r)
      else if n <? 32 then None
      else if n =? 92 then
        match r with
        | String e r1 =>
            match simple_escape e with
            | Some p => prepend p (string_literal r1)
            | None =>
                if Buffer.byte_of_ascii e =? 117 then
                  match r1 with
                  | String c1 (String c2 (String c3 (String c4 r2))) =>
                      match code_unit c1 c2 c3 c4 with
                      | None => None
                      | Some hi =>
                          match r2 with
                          | String b (String u (String d1 (String d2 (String d3 (String d4 r3))))) =>
                              match code_unit d1 d2 d3 d4 with
                              | Some lo =>
                                  if (Buffer.byte_of_ascii b =? 92) && (Buffer.byte_of_ascii u =? 117)
                                     && (55296 <=? hi) && (hi <? 56320)
                                     && (56320 <=? lo) && (lo <? 57344)
                                  then prepend (utf8 (65536 + (hi - 55296) * 1024 + (lo - 56320)))
                                               (string_literal r3)
                                  else prepend (utf8 hi) (string_literal r2)
                              | None => prepend (utf8 hi) (string_literal r2)
                              end
                          | _ => prepend (utf8 hi) (string_literal r2)
                          end
                      end
                  | _ => None
                  end
                else None
            end
        | EmptyString => None
        end
      else prepend (String c "") (string_literal r)
  end.

Definition is_digit (c : ascii) : bool :=
  let n := Buffer.byte_of_ascii c in (48 <=? n) && (n <=? 57).

(** The digits at the head of [s]: their value after [acc], their count
    after [count], and what follows them. *)
Fixpoint digits (s : string) (acc count : Z) : Z * Z * string :=
  match s with
  | String c s' =>
      if is_digit c then digits s' (acc * 10 + (Buffer.byte_of_ascii c - 48)) (count + 1)
      else (acc, count, s)
  | EmptyString => (acc, count, s)
  end.

(** The grammar of a number: an integer part, which is 0 or begins with
    another digit; a fraction, of a point and one digit or more; an
    exponent, of the letter e, a sign and one digit or more. *)
Definition integer_part (s : string) : option (Z * string) :=
  match s with
  | String "0" s' => Some (0, s')
  | String c _ =>
      if is_digit c then let '(n, _, rest) := digits s 0 0 in Some (n, rest) else None
  | EmptyString => None
  end.

Definition fraction_part (s : string) : option (Z * Z * string) :=
  match s with
  | String "." s' =>
      let '(f, count, rest) := digits s' 0 0 in
      if count =? 0 then None else Some (f, count, rest)
  | _ => Some (0, 0, s)
  end.

Definition exponent_digits (negative : bool) (s : string) : option (Z * string) :=
  let '(x, count, rest) := digits s 0 0 in
  if count =? 0 then None else Some (if negative then - x else x, rest).

Definition exponent_part (s : string) : option (Z * string) :=
  match s with
  | String "e" s' | String "E" s' =>
      match s' with
      | String "+" s'' => exponent_digits false s''
      | String "-" s'' => exponent_digits true s''
      | _ => exponent_digits false s'
      end
  | _ => Some (0, s)
  end.

Definition unsigned_literal (negative : bool) (s : string) : option (value * string) :=
  '(i, rest) ← integer_part s;
  '(f, count, rest) ← fraction_part rest;
  '(x, rest) ← exponent_part rest;
  Some (VNum (Number.of_decimal negative (i * 10 ^ count + f) (x - count)), rest).

Definition number_literal (s : string) : option (value * string) :=
  match s with
  | String "-" s' => unsigned_literal true s'
  | _ => unsigned_literal false s
  end.

Definition object_of (members : list (string * value)) : value :=
  VObj (fold_left (fun fields '(k, v) => assign fields k v) members []).

Fixpoint parse_value (fuel : nat) (s : string) {struct fuel} : option (value * string) :=
  match fuel with
  | O => None
  | S fuel' =>
      match skip_space s with
      | String "n" (String "u" (String "l" (String "l" r))) => Some (VNull, r)
      | String "t" (String "r" (String "u" (String "e" r))) => Some (VBool true, r)
      | String "f" (String "a" (String "l" (String "s" (String "e" r)))) => Some (VBool false, r)
      | String "034" r => '(str, r') ← string_literal r; Some (VStr str, r')
      | String "[" r =>
          match skip_space r with
          | String "]" r' => Some (VArr [], r')
          | _ => '(items, r') ← parse_items fuel' r; Some (VArr items, r')
          end
      | String "{" r =>
          match skip_space r with
          | String "}" r' => Some (VObj [], r')
          | _ => '(members, r') ← parse_members fuel' r; Some (object_of members, r')
          end
      | s' => number_literal s'
      end
  end
with parse_items (fuel : nat) (s : string) {struct fuel} : option (list value * string) :=
  match fuel with
  | O => None
  | S fuel' =>
      '(v, r) ← parse_value fuel' s;
      match skip_space r with
      | String "," r' => '(vs, r'') ← parse_items fuel' r'; Some (v :: vs, r'')
      | String "]" r' => Some ([v], r')
      | _ => None
      end
  end
with parse_members (fuel : nat) (s : string) {struct fuel}
  : option (list (string * value) * string) :=
  match fuel with
  | O => None
  | S fuel' =>
      match skip_space s with
      | String "034" r =>
          '(k, r1) ← string_literal r;
          match skip_space r1 with
          | String ":" r2 =>
              '(v, r3) ← parse_value fuel' r2;
              match skip_space r3 with
              | String "," r4 => '(ms, r5) ← parse_members fuel' r4; Some ((k, v) :: ms, r5)
              | String "}" r4 => Some ([(k, v)], r4)
              | _ => None
              end
          | _ => None
          end
      | _ => None
      end
  end.

(** [JSON.parse(text)]: the value, or a SyntaxError. *)
Definition parse (text : string) : outcome value :=
  match parse_value (String.length text + 2) text with
  | Some (v, rest) =>
      match skip_space rest with
      | EmptyString => Return v
      | _ => Throw (SyntaxError "Unexpected non-whitespace character after JSON")
      end
  | None => Throw (SyntaxError "Unexpected token in JSON")
  end.

End JSON.

(** ** Exceptions, and the users collection as state *)

Module Effects.

Import JS.

(** Sequencing of expressions that may throw. *)
Definition and_then {A B : Type} (e : outcome A) (k : A -> outcome B) : outcome B :=
  match e with
  | Return a => k a
  | Throw err => Throw err
  end.

(** [try { e } catch (error) { h }]. *)
Definition try_or {A : Type} (e : outcome A) (h : error -> A) : A :=
  match e with
  | Return a => a
  | Throw err => h err
  end.

End Effects.

Notation "'let*' x := e 'in' k" := (Effects.and_then e (fun x => k))
  (at level 10, x name, e at level 100, k at level 200).

(** The document store, as the handlers use it: the users collection and
    [db.collection('users').doc(id).set(data, { merge: true })].  The client
    refuses a document id that is not a non-empty string and a field whose
    value is [undefined]; a merging write creates the document or overwrites
    the fields it names, and leaves the others.  Field values are kept as
    they are written.  [FieldValue.serverTimestamp()] is a sentinel that the
    store replaces by its own time when the write is committed. *)

Module Firestore.

Import JS.

Inductive field_value : Type :=
| Plain (v : value)
| ServerTimestamp.

Inductive stored : Type :=
| Stored (v : value)
| Timestamp (t : Z).

Abbreviation document := (gmap string stored).
Abbreviation collection := (gmap string (gmap string stored)).

Definition resolve (now : Z) (f : field_value) : stored :=
  match f with
  | Plain v => Stored v
  | ServerTimestamp => Timestamp now
  end.

Definition fields_at (now : Z) (data : list (string * field_value)) : document :=
  list_to_map (map (fun kf => (fst kf, resolve now (snd kf))) data).

Definition defined (f : field_value) : bool :=
  match f with
  | Plain VUndefined => false
  | _ => true
  end.

(** [collection('users').doc(id)]: the id of the document referred to. *)
Definition doc (id : value) : outcome string :=
  match id with
  | VStr s =>
      if String.eqb s ""
      then Throw (StoreError "Value for argument documentPath is not a valid resource path. Path must be a non-empty string.")
      else Return s
  | _ => Throw (StoreError "Value for argument documentPath is not a valid resource path. Path must be a non-empty string.")
  end.

(** The merging write of [data] into the document [id], committed at the
    store's time [now]. *)
Definition merge (now : Z) (id : string) (data : list (string * field_value))
    (users : collection) : collection :=
  <[id := fields_at now data ∪ default ∅ (users !! id)]> users.

(** The state-and-exception monad of a handler. *)
Definition M (A : Type) : Type := collection -> outcome A * collection.

Definition ret {A : Type} (a : A) : M A := fun users => (Return a, users).

Definition bind {A B : Type} (m : M A) (k : A -> M B) : M B :=
  fun users =>
    match m users with
    | (Return a, users') => k a users'
    | (Throw err, users') => (Throw err, users')
    end.

(** An expression that does not touch the store. *)
Definition lift {A : Type} (e : outcome A) : M A := fun users => (e, users).

(** [try { m } catch (error) { h }]: what [m] wrote before it threw stays
    written. *)
Definition try_catch {A : Type} (m : M A) (h : error -> M A) : M A :=
  fun users =>
    match m users with
    | (Return a, users') => (Return a, users')
    | (Throw err, users') => h err users'
    end.

(** [await db.collection('users').doc(id).set(data, { merge: true })]. *)
Definition set_merge (now : Z) (id : value) (data : list (string * field_value)) : M unit :=
  fun users =>
    match doc id with
    | Throw err => (Throw err, users)
    | Return ref =>
        if forallb (fun kf => defined (snd kf)) data
        then (Return tt, merge now ref data users)
        else (Throw (StoreError "Cannot use undefined as a Firestore value."), users)
    end.

End Firestore.

Notation "x <- m ;; k" := (Firestore.bind m (fun x => k))
  (at level 20, m at next level, k at level 200).

(** ** Requests, responses and the environment *)

Module Http.

Import JS.

(** What the request stream yields: a string, or a buffer. *)
Inductive chunk : Type :=
| Text (s : string)
| Binary (b : Buffer.bytes).

(** A request: [req.method], [req.headers['x-signature']], the body as the
    stream delivers it, and [req.body], the body as the host has parsed
    it. *)
Record request := Request {
  method : string;
  x_signature : option string;
  stream : list chunk;
  body : value
}.

(** [res.status(code).json(payload)]. *)
Record response := Response {
  status : Z;
  json : value
}.

(** [process.env]. *)
Record environment := Env {
  LEMON_SQUEEZY_WEBHOOK_SECRET : option string
}.

(** [Buffer.from(s)] where [s] may be [undefined]. *)
Definition Buffer_from (s : option string) : outcome Buffer.bytes :=
  match s with
  | Some s => Return (Buffer.from s)
  | None => Throw (TypeError "The first argument must be of type string or an instance of Buffer. Received undefined")
  end.

(** [crypto.createHmac('sha256', secret).update(data).digest('hex')]: the
    key and the data must not be [undefined]. *)
Definition hmac_digest (secret : option string) (data : option Buffer.bytes) : outcome string :=
  match secret, data with
  | Some k, Some d => Return (Crypto.hmac_hex k d)
  | None, _ => Throw (TypeError "The key argument must be of type string. Received undefined")
  | _, None => Throw (TypeError "The data argument must be of type string. Received undefined")
  end.

(** [crypto.timingSafeEqual(a, b)]: throws on buffers of different
    lengths. *)
Definition timingSafeEqual (a b : Buffer.bytes) : outcome bool :=
  if Nat.eqb (length a) (length b)
  then Return (bool_decide (a = b))
  else Throw (RangeError "Input buffers must have the same byte length").

End Http.

Import JS Effects Firestore Http.
Local Open Scope string_scope.

Definition respond (code : Z) (payload : list (string * value)) : response :=
  Response code (VObj payload).

(** ** src/unnamed/part_000 *)

Module Strict.

(** Lines 23-30. *)
Definition verifySignature (payload signature secret : option string) : outcome bool :=
  let* digest := hmac_digest secret (Buffer.from <$> payload) in
  let* given := Buffer_from signature in
  let* computed := Buffer_from (Some digest) in
  timingSafeEqual given computed.

(** Lines 32-138. *)
Definition handler (env : environment) (now : Z) (req : request) : M response :=
  if negb (String.eqb (method req) "POST") then
    ret (respond 405 [("error", VStr "Method not allowed")])
  else
    try_catch
      (let signature := x_signature req in
       let secret := LEMON_SQUEEZY_WEBHOOK_SECRET env in
       if negb (truthy_string signature) || negb (truthy_string secret) then
         ret (respond 401 [("error", VStr "Unauthorized")])
       else
         let rawBody := JSON.stringify (body req) in
         isValid <- lift (verifySignature rawBody signature secret) ;;
         if negb isValid then
           ret (respond 401 [("error", VStr "Invalid signature")])
         else
           let event := body req in
           meta <- lift (get event "meta") ;;
           let eventName := get_opt meta "event_name" in
           data <- lift (get event "data") ;;
           let attributes := get_opt data "attributes" in
           _ <- (if is_string eventName "order_created"
                    && is_string (get_opt attributes "status") "paid" then
                   email <- lift (get attributes "user_email") ;;
                   first_order_item <- lift (get attributes "first_order_item") ;;
                   let productName :=
                     or_else (get_opt first_order_item "product_name") (VStr "") in
                   let orderId := get_opt data "id" in
                   lowered <- lift (call_toLowerCase productName) ;;
                   let subscriptionType :=
                     if includes lowered "yearly" then "yearly" else "lifetime" in
                   set_merge now email
                     [("email", Plain email);
                      ("subscription", Plain (VStr "premium"));
                      ("subscriptionType", Plain (VStr subscriptionType));
                      ("purchaseDate", ServerTimestamp);
                      ("lemonSqueezyOrderId", Plain orderId);
                      ("productName", Plain productName)]
                 else if is_string eventName "subscription_created" then
                   email <- lift (get attributes "user_email") ;;
                   let subscriptionId := get_opt data "id" in
                   set_merge now email
                     [("email", Plain email);
                      ("subscription", Plain (VStr "premium"));
                      ("subscriptionType", Plain (VStr "yearly"));
                      ("subscriptionStartDate", ServerTimestamp);
                      ("lemonSqueezySubscriptionId", Plain subscriptionId)]
                 else if is_string eventName "subscription_updated" then
                   email <- lift (get attributes "user_email") ;;
                   status <- lift (get attributes "status") ;;
                   let subscriptionStatus :=
                     if is_string status "active" || is_string status "on_trial"
                     then "premium" else "free" in
                   set_merge now email
                     [("email", Plain email);
                      ("subscription", Plain (VStr subscriptionStatus));
                      ("subscriptionStatus", Plain status);
                      ("lastUpdated", ServerTimestamp)]
                 else ret tt) ;;
           ret (respond 200 [("received", VBool true)]))
      (fun error => ret (respond 500 [("error", VStr "Internal server error")])).

(** The request reaches the event dispatch (line 57): it is a POST with a
    signature and a secret, and [verifySignature] returns true. *)
Definition verified (env : environment) (req : request) : Prop :=
  method req = "POST"
  /\ truthy_string (x_signature req) = true
  /\ truthy_string (LEMON_SQUEEZY_WEBHOOK_SECRET env) = true
  /\ verifySignature (JSON.stringify (body req)) (x_signature req)
       (LEMON_SQUEEZY_WEBHOOK_SECRET env) = Return true.

End Strict.

(** ** src/api/webhook.js, second document (lines 105-268) *)

Module Lenient.

(** Lines 125-143. *)
Definition verifySignature (rawBody signature secret : option string) : bool :=
  if negb (truthy_string signature) || negb (truthy_string secret) then false
  else
    try_or
      (let* digest := hmac_digest secret (Buffer.from <$> rawBody) in
       let* given := Buffer_from signature in
       let* computed := Buffer_from (Some digest) in
       timingSafeEqual given computed)
      (fun error => false).

(** Lines 145-268. *)
Definition handler (env : environment) (now : Z) (req : request) : M response :=
  if negb (String.eqb (method req) "POST") then
    ret (respond 405 [("error", VStr "Method not allowed")])
  else
    try_catch
      (let signature := x_signature req in
       let secret := LEMON_SQUEEZY_WEBHOOK_SECRET env in
       if negb (truthy_string secret) then
         ret (respond 500 [("error", VStr "Webhook secret not configured")])
       else
         let rawBody := JSON.stringify (body req) in
         if truthy_string signature && negb (verifySignature rawBody signature secret) then
           ret (respond 401 [("error", VStr "Invalid signature")])
         else
           let event := body req in
           meta <- lift (get event "meta") ;;
           let eventName := get_opt meta "event_name" in
           data <- lift (get event "data") ;;
           let attributes := get_opt data "attributes" in
           _ <- (if is_string eventName "order_created"
                    && is_string (get_opt attributes "status") "paid" then
                   email <- lift (get attributes "user_email") ;;
                   first_order_item <- lift (get attributes "first_order_item") ;;
                   let productName :=
                     or_else (get_opt first_order_item "product_name") (VStr "") in
                   let orderId := get_opt data "id" in
                   lowered <- lift (call_toLowerCase productName) ;;
                   let subscriptionType :=
                     if includes lowered "yearly" then "yearly" else "lifetime" in
                   set_merge now email
                     [("email", Plain email);
                      ("subscription", Plain (VStr "premium"));
                      ("subscriptionType", Plain (VStr subscriptionType));
                      ("purchaseDate", ServerTimestamp);
                      ("lemonSqueezyOrderId", Plain orderId);
                      ("productName", Plain productName)]
                 else if is_string eventName "subscription_created" then
                   email <- lift (get attributes "user_email") ;;
                   let subscriptionId := get_opt data "id" in
                   set_merge now email
                     [("email", Plain email);
                      ("subscription", Plain (VStr "premium"));
                      ("subscriptionType", Plain (VStr "yearly"));
                      ("subscriptionStartDate", ServerTimestamp);
                      ("lemonSqueezySubscriptionId", Plain subscriptionId)]
                 else if is_string eventName "subscription_updated" then
                   email <- lift (get attributes "user_email") ;;
                   status <- lift (get attributes "status") ;;
                   let subscriptionStatus :=
                     if is_string status "active" || is_string status "on_trial"
                     then "premium" else "free" in
                   set_merge now email
                     [("email", Plain email);
                      ("subscription", Plain (VStr subscriptionStatus));
                      ("subscriptionStatus", Plain status);
                      ("lastUpdated", ServerTimestamp)]
                 else ret tt) ;;
           ret (respond 200 [("received", VBool true)]))
      (fun error =>
         ret (respond 500 [("error", VStr "Internal server error");
                           ("details", VStr (message error))])).

(** The request reaches the event dispatch (line 183): it is a POST, the
    secret is set, and the signature, when there is one, is verified. *)
Definition passes (env : environment) (req : request) : Prop :=
  method req = "POST"
  /\ truthy_string (LEMON_SQUEEZY_WEBHOOK_SECRET env) = true
  /\ (truthy_string (x_signature req) = true ->
      verifySignature (JSON.stringify (body req)) (x_signature req)
        (LEMON_SQUEEZY_WEBHOOK_SECRET env) = true).

(** The request carries a signature and it is verified. *)
Definition verified (env : environment) (req : request) : Prop :=
  passes env req /\ truthy_string (x_signature req) = true.

End Lenient.

(** ** src/api/webhook.js, first document (lines 1-104) *)

Module RawBody.

(** Lines 12-19. *)
Definition getRawBody (readable : list chunk) : Buffer.bytes :=
  let chunks :=
    map (fun chunk => match chunk with
                      | Text s => Buffer.from s
                      | Binary b => b
                      end) readable in
  Buffer.concat chunks.

(** Lines 35-104.  [parse_and_project] is the code from step 4 on, which is
    reached when the verification block is skipped or passed. *)
Definition handler (env : environment) (now : Z) (req : request) : M response :=
  if negb (String.eqb (method req) "POST") then
    ret (respond 405 [("error", VStr "Method not allowed")])
  else
    try_catch
      (let signature := x_signature req in
       let secret := LEMON_SQUEEZY_WEBHOOK_SECRET env in
       let rawBody := getRawBody (stream req) in
       let parse_and_project : M response :=
         event <- lift (JSON.parse (Buffer.toString rawBody)) ;;
         meta <- lift (get event "meta") ;;
         let eventName := get_opt meta "event_name" in
         data <- lift (get event "data") ;;
         let attributes := get_opt data "attributes" in
         _ <- (if is_string eventName "order_created"
                  && is_string (get_opt attributes "status") "paid" then
                 email <- lift (get attributes "user_email") ;;
                 first_order_item <- lift (get attributes "first_order_item") ;;
                 let productName :=
                   or_else (get_opt first_order_item "product_name") (VStr "") in
                 let orderId := get_opt data "id" in
                 lowered <- lift (call_toLowerCase productName) ;;
                 let subscriptionType :=
                   if includes lowered "yearly" then "yearly" else "lifetime" in
                 set_merge now email
                   [("email", Plain email);
                    ("subscription", Plain (VStr "premium"));
                    ("subscriptionType", Plain (VStr subscriptionType));
                    ("purchaseDate", ServerTimestamp);
                    ("lemonSqueezyOrderId", Plain orderId);
                    ("productName", Plain productName)]
               else ret tt) ;;
         ret (respond 200 [("received", VBool true)]) in
       if truthy_string secret && truthy_string signature then
         digest <- lift (hmac_digest secret (Some rawBody)) ;;
         isValid <- lift (timingSafeEqual
                            (Buffer.from_hex (default "" signature))
                            (Buffer.from_hex digest)) ;;
         if negb isValid then
           ret (respond 401 [("error", VStr "Invalid signature")])
         else parse_and_project
       else parse_and_project)
      (fun error => ret (respond 500 [("error", VStr "Internal server error")])).

(** The verification block (lines 48-63) is entered and passed, and the
    body parses to [event]. *)
Definition verified (env : environment) (req : request) (event : value) : Prop :=
  method req = "POST"
  /\ truthy_string (LEMON_SQUEEZY_WEBHOOK_SECRET env) = true
  /\ truthy_string (x_signature req) = true
  /\ Buffer.from_hex (default "" (x_signature req))
     = Crypto.hmac_sha256 (Buffer.from (default "" (LEMON_SQUEEZY_WEBHOOK_SECRET env)))
         (getRawBody (stream req))
  /\ JSON.parse (Buffer.toString (getRawBody (stream req))) = Return event.

End RawBody.

(** ** The vocabulary of the specification *)

(** The fields of an inbound event, as every version reads them:
    [event.meta?.event_name], [event.data?.attributes], [event.data?.id] and
    [attributes.first_order_item?.product_name || ''] (with [?.] throughout:
    where the handlers read with a plain [.], an absent object is an
    exception, which the theorems account for). *)
Module Event.

Definition event_name (event : value) : value :=
  get_opt (get_opt event "meta") "event_name".

Definition attributes (event : value) : value :=
  get_opt (get_opt event "data") "attributes".

Definition id (event : value) : value :=
  get_opt (get_opt event "data") "id".

Definition status (event : value) : value :=
  get_opt (attributes event) "status".

Definition user_email (event : value) : value :=
  get_opt (attributes event) "user_email".

Definition product_name (event : value) : value :=
  or_else (get_opt (get_opt (attributes event) "first_order_item") "product_name")
          (VStr "").

Definition is_object (v : value) : bool :=
  match v with
  | VObj _ => true
  | _ => false
  end.

End Event.

(** What a request does to the users collection: nothing, or one merging
    write. *)
Inductive effect : Type :=
| Nothing
| Merged (id : string) (data : list (string * field_value)).

Definition commit (e : effect) (now : Z) (users : collection) : collection :=
  match e with
  | Nothing => users
  | Merged id data => merge now id data users
  end.

(** The timestamped fields of a write are among [names]. *)
Definition stamps_within (names : list string) (e : effect) : Prop :=
  match e with
  | Nothing => True
  | Merged _ data => forall k, (k, ServerTimestamp) ∈ data -> k ∈ names
  end.

(** The named fields of a write are among [names], and it is the record
    of [email] that is written. *)
Definition writes_within (names : list string) (email : value) (e : effect) : Prop :=
  match e with
  | Nothing => True
  | Merged id data => email = VStr id /\ forall k, k ∈ map fst data -> k ∈ names
  end.

(** A response that refuses the request. *)
Definition refusal (r : response) : Prop := status r = 401 \/ status r = 500.

(** The stored field [name] of the record [id]. *)
Definition field (users : collection) (id name : string) : option stored :=
  match users !! id with
  | Some record => record !! name
  | None => None
  end.



(** A single-bit mutation of a string of ASCII characters, as a hexadecimal
    digest is: bit [k] of the code unit of its character [i] is flipped,
    and the character that results is written in UTF-8, as every character
    of a string is here.  A flip of one of the seven low bits gives another
    ASCII character; a flip of a higher bit gives a character of two or
    three bytes. *)
Definition is_ascii (s : string) : Prop :=
  Forall (fun b => b < 128) (Buffer.from s).

Definition flip_unit (c : ascii) (k : nat) : string :=
  JSON.utf8 (Z.lxor (Buffer.byte_of_ascii c) (2 ^ Z.of_nat k)).

Fixpoint mutate (s : string) (i k : nat) : string :=
  match s, i with
  | EmptyString, _ => EmptyString
  | String c s', O => flip_unit c k +:+ s'
  | String c s', S i' => String c (mutate s' i' k)
  end.

(** ** Sample requests *)

Module Sample.

(** A JSON text written with single quotes for the double ones. *)
Fixpoint json_text (s : string) : string :=
  match s with
  | EmptyString => EmptyString
  | String c s' => String (if Ascii.eqb c "'" then "034"%char else c) (json_text s')
  end.

Definition secret : string := "whsec_7f3a9c".
Definition env : environment := Env (Some secret).
Definition unconfigured : environment := Env None.

(** A paid order as the provider serialises it: compact, the slashes of its
    link escaped. *)
Definition order_text : string :=
  json_text "{'meta':{'event_name':'order_created'},'data':{'type':'orders','id':'1001','attributes':{'status':'paid','user_email':'ada@example.com','first_order_item':{'product_name':'Pro Yearly Plan'},'urls':{'receipt':'https:\/\/app.lemonsqueezy.com\/my-orders\/1001'}}}}".

Definition order_event : value :=
  VObj [("meta", VObj [("event_name", VStr "order_created")]);
        ("data", VObj [("type", VStr "orders");
                       ("id", VStr "1001");
                       ("attributes",
                        VObj [("status", VStr "paid");
                              ("user_email", VStr "ada@example.com");
                              ("first_order_item",
                               VObj [("product_name", VStr "Pro Yearly Plan")]);
                              ("urls",
                               VObj [("receipt",
                                      VStr "https://app.lemonsqueezy.com/my-orders/1001")])])])].

Definition order_data : list (string * field_value) :=
  [("email", Plain (VStr "ada@example.com"));
   ("subscription", Plain (VStr "premium"));
   ("subscriptionType", Plain (VStr "yearly"));
   ("purchaseDate", ServerTimestamp);
   ("lemonSqueezyOrderId", Plain (VStr "1001"));
   ("productName", Plain (VStr "Pro Yearly Plan"))].

(** The order, signed by the provider over the bytes it sends. *)
Definition signed_order : request :=
  Request "POST" (Some (Crypto.hmac_hex secret (Buffer.from order_text)))
          [Binary (Buffer.from order_text)] order_event.

(** The same order with no x-signature header. *)
Definition unsigned_order : request :=
  Request "POST" None [Binary (Buffer.from order_text)] order_event.

(** The same order with a signature of three characters. *)
Definition short_signature_order : request :=
  Request "POST" (Some "abc") [Binary (Buffer.from order_text)] order_event.

(** The same order with one more digit after the digest of its bytes. *)
Definition padded_signature_order : request :=
  Request "POST" (Some (Crypto.hmac_hex secret (Buffer.from order_text) +:+ "0"))
          [Binary (Buffer.from order_text)] order_event.

(** A request whose signature is the digest of the re-serialised body. *)
Definition resigned (event : value) : request :=
  let text := default "" (JSON.stringify event) in
  Request "POST" (Some (Crypto.hmac_hex secret (Buffer.from text)))
          [Binary (Buffer.from text)] event.

Definition update_event (status : string) : value :=
  VObj [("meta", VObj [("event_name", VStr "subscription_updated")]);
        ("data", VObj [("id", VStr "7");
                       ("attributes",
                        VObj [("status", VStr status);
                              ("user_email", VStr "ada@example.com")])])].

Definition bare_event (name : string) : value :=
  VObj [("meta", VObj [("event_name", VStr name)]);
        ("data", VObj [("id", VStr "7")])].

(** A record written earlier, by a purchase. *)
Definition ada : document :=
  {[ "email" := Stored (VStr "ada@example.com");
     "subscription" := Stored (VStr "premium");
     "subscriptionType" := Stored (VStr "lifetime");
     "purchaseDate" := Timestamp 1700000000;
     "lemonSqueezyOrderId" := Stored (VStr "1001");
     "productName" := Stored (VStr "Pro Lifetime Plan") ]}.

Definition users0 : collection := {[ "ada@example.com" := ada ]}.

End Sample.

(** ** The start of each file

    Each version begins by initialising the store client, once, with the
    credentials of the environment (webhook.js lines 21-31 and 111-120,
    part_000 lines 9-18).  The private key is read with its escaped line
    ends replaced. *)

Module Init.

(** [key.replace(/\\n/g, '\n')]: from left to right, every backslash that
    the letter n follows is replaced, with that letter, by a line feed, and
    the search goes on after the pair. *)
Fixpoint unescape_newlines (key : string) : string :=
  match key with
  | String "\" (String "n" rest) => String "010" (unescape_newlines rest)
  | String c rest => String c (unescape_newlines rest)
  | EmptyString => EmptyString
  end.

(** [process.env.FIREBASE_PRIVATE_KEY?.replace(/\\n/g, '\n')]. *)
Definition privateKey (FIREBASE_PRIVATE_KEY : option string) : option string :=
  unescape_newlines <$> FIREBASE_PRIVATE_KEY.

End Init.

(** ** Runs, and what they come to *)

(** [res.status(200).json({ received: true })]. *)
Definition received : response := respond 200 [("received", VBool true)].

(** The catch of part_000 and of the first document of webhook.js. *)
Definition internal_error : response :=
  respond 500 [("error", VStr "Internal server error")].

(** The fields that the three versions write, and those that they stamp
    with the server's time. *)
Definition field_names : list string :=
  ["email"; "subscription"; "subscriptionType"; "purchaseDate"; "lemonSqueezyOrderId";
   "productName"; "subscriptionStartDate"; "lemonSqueezySubscriptionId";
   "subscriptionStatus"; "lastUpdated"].

Definition stamp_names : list string :=
  ["purchaseDate"; "subscriptionStartDate"; "lastUpdated"].

(** [v == null]. *)
Definition nullish (v : value) : bool :=
  match v with
  | VUndefined | VNull => true
  | _ => false
  end.

(** The event that the first document of webhook.js reads off the stream,
    [undefined] standing for a body that does not parse. *)
Definition parsed_event (req : request) : value :=
  match JSON.parse (Buffer.toString (RawBody.getRawBody (stream req))) with
  | Return event => event
  | Throw _ => VUndefined
  end.

(** The request reaches step 4 of the first document of webhook.js (line
    65) and its body parses to [event]: it is a POST, and the verification
    block is skipped (no secret, or no signature) or passed. *)
Definition reaches_parse (env : environment) (req : request) (event : value) : Prop :=
  method req = "POST"
  /\ (truthy_string (LEMON_SQUEEZY_WEBHOOK_SECRET env) = true ->
      truthy_string (x_signature req) = true ->
      Buffer.from_hex (default "" (x_signature req))
      = Crypto.hmac_sha256 (Buffer.from (default "" (LEMON_SQUEEZY_WEBHOOK_SECRET env)))
          (RawBody.getRawBody (stream req)))
  /\ JSON.parse (Buffer.toString (RawBody.getRawBody (stream req))) = Return event.

(** An id that the store takes for a document of a collection: it is not
    empty, holds no slash (which would make it a path of several segments),
    is not one period or two, does not begin as a reserved name does, and
    has at most 1500 bytes.  The model of [doc] refuses the empty id only;
    the further theorems that state that a record is written take their
    ids among these. *)
Definition document_id (id : string) : Prop :=
  id <> "" /\ includes id "/" = false /\ id <> "." /\ id <> ".."
  /\ String.prefix "__" id = false /\ (String.length id <= 1500)%nat.

(** The event names no record: its user_email is not a non-empty string. *)
Definition no_recipient (event : value) : Prop :=
  forall email, Event.user_email event = VStr email -> email = "".

(** An event of one of the three kinds that are projected, which lacks what
    its write needs: the recipient, the id, the status, or a product name
    that is a string when it is there. *)
Definition incomplete (event : value) : Prop :=
  (Event.event_name event = VStr "order_created" /\ Event.status event = VStr "paid"
   /\ (no_recipient event \/ Event.id event = VUndefined
       \/ forall name, Event.product_name event <> VStr name))
  \/ (Event.event_name event = VStr "subscription_created"
      /\ (no_recipient event \/ Event.id event = VUndefined))
  \/ (Event.event_name event = VStr "subscription_updated"
      /\ (no_recipient event \/ Event.status event = VUndefined)).

(** What the runs of a handler on one request come to, at every time and
    on every collection: a response [r] and an effect [e]. *)
Definition comes_to (h : Z -> M response) (r : response) (e : effect) : Prop :=
  forall now users, h now users = (Return r, commit e now users).

(** The shape of what a request does: the write, if there is one, goes
    into the record of [email], names fields of [field_names], stamps fields
    of [stamp_names] and is answered 200; a request that is not a POST is
    answered 405, a POST 200, 401 or 500. *)
Definition shaped (m : string) (email : value) (r : response) (e : effect) : Prop :=
  writes_within field_names email e
  /\ stamps_within stamp_names e
  /\ (e = Nothing \/ r = received)
  /\ (if String.eqb m "POST" then status r ∈ [200; 401; 500] else status r = 405).

(** Properties of a version [h] of the handler; [recipient] gives the
    user_email of the event that the version reads in a request. *)
Section Version.

Variable h : environment -> Z -> request -> M response.
Variable recipient : request -> value.

(** No exception leaves the handler, and the answer is one of four. *)
Definition answers : Prop :=
  forall env now req users, exists r users',
    h env now req users = (Return r, users')
    /\ status r ∈ [200; 401; 405; 500]
    /\ (status r = 405 <-> method req <> "POST").

(** The answer depends neither on the time nor on the records. *)
Definition answers_blindly : Prop :=
  forall env req now now' users users',
    fst (h env now req users) = fst (h env now' req users').

(** What a run leaves behind differs from what it found at most in the
    fields of [field_names]; when the recipient, if it is a string, is an id
    that the store takes for a document, every record but the recipient's is
    as it was; and no field that was there is gone. *)
Definition framed : Prop :=
  forall env now req users,
    let users' := snd (h env now req users) in
    (forall id name, name ∉ field_names -> field users' id name = field users id name)
    /\ ((forall email, recipient req = VStr email -> document_id email) ->
        forall id, recipient req <> VStr id -> users' !! id = users !! id)
    /\ (forall id name, is_Some (field users id name) -> is_Some (field users' id name)).

(** A second delivery, at [now2], leaves what one delivery at [now2]
    leaves, and moves no field but the stamped ones. *)
Definition absorbs_redelivery : Prop :=
  forall env req users now1 now2,
    let once t := snd (h env t req users) in
    let twice := snd (h env now2 req (once now1)) in
    twice = once now2
    /\ forall id name,
         name ∉ stamp_names -> field twice id name = field (once now1) id name.

End Version.

(** The fields of a paid order, as lines 81-88 of part_000 and 207-214 of
    webhook.js write them, and the subscription type that lines 75-78 and
    201-204 derive from the product name. *)
Definition order_fields (email subscriptionType id name : string)
  : list (string * field_value) :=
  [("email", Plain (VStr email));
   ("subscription", Plain (VStr "premium"));
   ("subscriptionType", Plain (VStr subscriptionType));
   ("purchaseDate", ServerTimestamp);
   ("lemonSqueezyOrderId", Plain (VStr id));
   ("productName", Plain (VStr name))].

Definition subscription_type (name : string) : string :=
  if includes (toLowerCase name) "yearly" then "yearly" else "lifetime".

(** The fields of an update, as lines 118-123 of part_000 and 248-253 of
    webhook.js write them, and the subscription that lines 113-116 and
    243-246 derive from the status. *)
Definition update_fields (email subscription status : string)
  : list (string * field_value) :=
  [("email", Plain (VStr email));
   ("subscription", Plain (VStr subscription));
   ("subscriptionStatus", Plain (VStr status));
   ("lastUpdated", ServerTimestamp)].

Definition subscription_of (status : string) : string :=
  if String.eqb status "active" || String.eqb status "on_trial" then "premium" else "free".

(** The write of an order: its fields are named once, and purchaseDate is
    stamped. *)
Definition dated (e : effect) : Prop :=
  match e with
  | Nothing => True
  | Merged _ data =>
      NoDup (map fst data) /\ ("purchaseDate", ServerTimestamp) ∈ data
  end.

(** What the runs [h] of a handler on one request come to when the request
    is delivered again: the response and the write are those of the request,
    whatever the time and the records; a second delivery, at [now2], leaves
    what one delivery at [now2] leaves; it moves no field but purchaseDate;
    and purchaseDate, where the order is written to a record whose id is a
    document id, is the time of the last delivery. *)
Definition redelivery_is_absorbed (h : Z -> M response) : Prop :=
  exists r e,
    comes_to h r e
    /\ forall users now1 now2,
         let once t := snd (h t users) in
         let twice := snd (h now2 (once now1)) in
         twice = once now2
         /\ (forall id name,
               name <> "purchaseDate" -> field twice id name = field (once now1) id name)
         /\ (forall id data,
               e = Merged id data -> document_id id ->
               field (once now1) id "purchaseDate" = Some (Timestamp now1)
               /\ field twice id "purchaseDate" = Some (Timestamp now2)).

(** Every single-bit mutation of a string: of each of its characters, each
    of the sixteen bits of the code unit. *)
Definition mutations (s : string) : list string :=
  flat_map (fun i => map (mutate s i) (seq 0 16)) (seq 0 (String.length s)).

(** No mutation of [body] has the digest of [body] under [secret]. *)
Definition digest_is_its_own (secret body : string) : bool :=
  forallb (fun body' =>
             negb (String.eqb (Crypto.hmac_hex secret (Buffer.from body'))
                              (Crypto.hmac_hex secret (Buffer.from body))))
          (mutations body).

(** The dispatch on the event, which part_000 (lines 57-132) and the second
    document of webhook.js (lines 183-262) have in common. *)
Definition dispatch (now : Z) (event : value) : M response :=
  meta <- lift (get event "meta") ;;
  let eventName := get_opt meta "event_name" in
  data <- lift (get event "data") ;;
  let attributes := get_opt data "attributes" in
  _ <- (if is_string eventName "order_created"
           && is_string (get_opt attributes "status") "paid" then
          email <- lift (get attributes "user_email") ;;
          first_order_item <- lift (get attributes "first_order_item") ;;
          let productName :=
            or_else (get_opt first_order_item "product_name") (VStr "") in
          let orderId := get_opt data "id" in
          lowered <- lift (call_toLowerCase productName) ;;
          let subscriptionType :=
            if includes lowered "yearly" then "yearly" else "lifetime" in
          set_merge now email
            [("email", Plain email);
             ("subscription", Plain (VStr "premium"));
             ("subscriptionType", Plain (VStr subscriptionType));
             ("purchaseDate", ServerTimestamp);
             ("lemonSqueezyOrderId", Plain orderId);
             ("productName", Plain productName)]
        else if is_string eventName "subscription_created" then
          email <- lift (get attributes "user_email") ;;
          let subscriptionId := get_opt data "id" in
          set_merge now email
            [("email", Plain email);
             ("subscription", Plain (VStr "premium"));
             ("subscriptionType", Plain (VStr "yearly"));
             ("subscriptionStartDate", ServerTimestamp);
             ("lemonSqueezySubscriptionId", Plain subscriptionId)]
        else if is_string eventName "subscription_updated" then
          email <- lift (get attributes "user_email") ;;
          status <- lift (get attributes "status") ;;
          let subscriptionStatus :=
            if is_string status "active" || is_string status "on_trial"
            then "premium" else "free" in
          set_merge now email
            [("email", Plain email);
             ("subscription", Plain (VStr subscriptionStatus));
             ("subscriptionStatus", Plain status);
             ("lastUpdated", ServerTimestamp)]
        else ret tt) ;;
  ret (respond 200 [("received", VBool true)]).

(** ** More sample requests *)

Module Delivery.


Definition created_event : value :=
  VObj [("meta", VObj [("event_name", VStr "subscription_created")]);
        ("data", VObj [("type", VStr "subscriptions");
                       ("id", VStr "42");
                       ("attributes",
                        VObj [("status", VStr "active");
                              ("user_email", VStr "ada@example.com")])])].

Definition created_data : list (string * field_value) :=
  [("email", Plain (VStr "ada@example.com"));
   ("subscription", Plain (VStr "premium"));
   ("subscriptionType", Plain (VStr "yearly"));
   ("subscriptionStartDate", ServerTimestamp);
   ("lemonSqueezySubscriptionId", Plain (VStr "42"))].

(** An update that carries no status. *)
Definition update_without_status : value :=
  VObj [("meta", VObj [("event_name", VStr "subscription_updated")]);
        ("data", VObj [("id", VStr "7");
                       ("attributes", VObj [("user_email", VStr "ada@example.com")])])].


(** Two short bodies. *)
Definition empty_object : string := "{}".
Definition empty_array : string := "[]".

(** A request as the first document of webhook.js sees it: the stream, and
    no parsed body. *)
Definition streamed (signature : option string) (chunks : list chunk) : request :=
  Request "POST" signature chunks VUndefined.

(** The digest of the paid order of [Sample], in capital letters. *)
Definition capital_digest : string :=
  "8B7D1858E931BDD6AF3E16B849109E19EBF0C6DC3AE0DEC795FA2C44368D9842".

End Delivery.

(** * Properties *)

(** ** Buffers, digests and signatures *)

Section BufferFacts.

Import Buffer.

Lemma byte_of_ascii_inj (c1 c2 : ascii) :
  byte_of_ascii c1 = byte_of_ascii c2 -> c1 = c2.
Proof.
  unfold byte_of_ascii. intros H. apply N2Z.inj in H.
  rewrite <- (ascii_N_embedding c1), <- (ascii_N_embedding c2). now rewrite H.
Qed.

Lemma from_inj (s1 s2 : string) : from s1 = from s2 -> s1 = s2.
Proof.
  revert s2. induction s1 as [|c1 s1 IH]; intros [|c2 s2]; simpl; try congruence.
  intros H. injection H as Hc Hs. f_equal; [now apply byte_of_ascii_inj | now apply IH].
Qed.

Lemma length_from (s : string) : length (from s) = String.length s.
Proof. induction s; simpl; congruence. Qed.

Lemma length_to_hex (l : bytes) : String.length (to_hex l) = (2 * length l)%nat.
Proof. induction l; simpl; lia. Qed.

(** A property of the sixteen digit values is checked on each. *)
Lemma digit_cases (P : Z -> Prop) :
  (forall m, (m < 16)%nat -> P (Z.of_nat m)) -> forall n, 0 <= n < 16 -> P n.
Proof.
  intros HP n Hn. rewrite <- (Z2Nat.id n) by lia. apply HP. lia.
Qed.

Lemma hex_value_digit (n : Z) : 0 <= n < 16 -> hex_value (hex_digit n) = Some n.
Proof.
  revert n. apply digit_cases. intros m Hm.
  do 16 (destruct m as [|m]; [reflexivity |]). lia.
Qed.

Lemma from_hex_to_hex (l : bytes) : Forall is_byte l -> from_hex (to_hex l) = l.
Proof.
  induction 1 as [|b l Hb _ IH]; simpl; [reflexivity |].
  unfold is_byte in Hb.
  rewrite !hex_value_digit.
  - rewrite IH. f_equal. pose proof (Z.div_mod b 16). lia.
  - apply Z.mod_pos_bound. lia.
  - split; [apply Z.div_pos; lia | apply Z.div_lt_upper_bound; lia].
Qed.

Lemma hex_digit_is_ascii (n : Z) : 0 <= n < 16 -> byte_of_ascii (hex_digit n) < 128.
Proof.
  revert n. apply digit_cases. intros m Hm.
  do 16 (destruct m as [|m]; [reflexivity |]). lia.
Qed.

Lemma to_hex_is_ascii (l : bytes) : Forall is_byte l -> is_ascii (to_hex l).
Proof.
  unfold is_ascii. induction 1 as [|b l Hb _ IH]; simpl; [constructor |].
  unfold is_byte in Hb.
  repeat constructor; [| | exact IH]; apply hex_digit_is_ascii.
  - split; [apply Z.div_pos; lia | apply Z.div_lt_upper_bound; lia].
  - apply Z.mod_pos_bound. lia.
Qed.

End BufferFacts.

Section DigestFacts.

Import Buffer Crypto.

Lemma word_bytes_are_bytes (x : Z) : Forall is_byte (word_bytes x).
Proof.
  unfold word_bytes, is_byte.
  repeat constructor; apply Z.mod_pos_bound; lia.
Qed.

Lemma sha256_is_bytes (msg : bytes) : Forall is_byte (sha256 msg).
Proof.
  unfold sha256, digest_bytes.
  repeat (apply Forall_app; split); apply word_bytes_are_bytes.
Qed.

Lemma length_sha256 (msg : bytes) : length (sha256 msg) = 32%nat.
Proof. reflexivity. Qed.

Lemma length_hmac_sha256 (key data : bytes) : length (hmac_sha256 key data) = 32%nat.
Proof. unfold hmac_sha256. apply length_sha256. Qed.

Lemma length_hmac_hex (secret : string) (data : bytes) :
  String.length (hmac_hex secret data) = 64%nat.
Proof. unfold hmac_hex, hmac_sha256. now rewrite length_to_hex, length_sha256. Qed.

Lemma from_hex_hmac_hex (secret : string) (data : bytes) :
  from_hex (hmac_hex secret data) = hmac_sha256 (from secret) data.
Proof. unfold hmac_hex, hmac_sha256. apply from_hex_to_hex, sha256_is_bytes. Qed.

Lemma hmac_hex_is_ascii (secret : string) (data : bytes) : is_ascii (hmac_hex secret data).
Proof. unfold hmac_hex, hmac_sha256. apply to_hex_is_ascii, sha256_is_bytes. Qed.

(** The digests of FIPS 180-4 (appendix B.1) and of RFC 4231 (test case 2). *)
Example sha256_abc :
  to_hex (sha256 (from "abc"))
  = "ba7816bf8f01cfea414140de5dae2223b00361a396177a9cb410ff61f20015ad".
Proof. vm_compute. reflexivity. Qed.

Example hmac_sha256_rfc4231 :
  hmac_hex "Jefe" (from "what do ya want for nothing?")
  = "5bdcc146bf60754e6a042426089575c75a003f089d2739839dec58b964ec3843".
Proof. vm_compute. reflexivity. Qed.

End DigestFacts.

(** ** Strings and values *)

Section StringFacts.



Lemma toLowerCase_app (a b : string) :
  toLowerCase (a +:+ b) = toLowerCase a +:+ toLowerCase b.
Proof. induction a as [|c a IH]; simpl; [reflexivity | now rewrite IH]. Qed.



Lemma length_append (a b : string) :
  String.length (a +:+ b) = (String.length a + String.length b)%nat.
Proof. induction a as [|c a IH]; simpl; [reflexivity | now rewrite IH]. Qed.

(** A flipped character is another one; it keeps its length exactly when
    the bit is one of the seven low ones. *)
Lemma flip_unit_cases (c : ascii) (k : nat) :
  Buffer.byte_of_ascii c < 128 -> (k < 16)%nat ->
  flip_unit c k <> String c ""
  /\ ((k < 7)%nat -> String.length (flip_unit c k) = 1%nat)
  /\ ((7 <= k)%nat -> (1 < String.length (flip_unit c k))%nat).
Proof.
  intros Hc Hk.
  destruct c as [b0 b1 b2 b3 b4 b5 b6 [|]].
  { exfalso. revert Hc. destruct b0, b1, b2, b3, b4, b5, b6; vm_compute; congruence. }
  clear Hc.
  do 16 (destruct k as [|k];
         [destruct b0, b1, b2, b3, b4, b5, b6; vm_compute;
          (split; [discriminate | split; intros; lia]) |]).
  lia.
Qed.

Lemma mutate_cases (s : string) (i k : nat) :
  is_ascii s -> (i < String.length s)%nat -> (k < 16)%nat ->
  mutate s i k <> s
  /\ ((k < 7)%nat -> String.length (mutate s i k) = String.length s)
  /\ ((7 <= k)%nat -> (String.length s < String.length (mutate s i k))%nat).
Proof.
  unfold is_ascii. revert i. induction s as [|c s IH]; intros i Hs Hi Hk; simpl in Hi; [lia |].
  simpl in Hs. apply Forall_cons in Hs as [Hc Hs].
  destruct i as [|i]; simpl.
  - destruct (flip_unit_cases c k Hc Hk) as (Hne & Hlow & Hhigh).
    rewrite length_append. split; [| split].
    + destruct (le_lt_dec 7 k) as [H7 | H7].
      * intros Heq. apply (f_equal String.length) in Heq.
        rewrite length_append in Heq. simpl in Heq. specialize (Hhigh H7). lia.
      * specialize (Hlow H7).
        destruct (flip_unit c k) as [|c' [|c'' r]]; simpl in Hlow; try discriminate.
        simpl. intros [= ->]. now apply Hne.
    + intros H7. rewrite (Hlow H7). reflexivity.
    + intros H7. specialize (Hhigh H7). lia.
  - destruct (IH i Hs ltac:(lia) Hk) as (Hne & Hlow & Hhigh).
    split; [| split].
    + intros [= Heq]. now apply Hne.
    + intros H7. now rewrite (Hlow H7).
    + intros H7. specialize (Hhigh H7). lia.
Qed.

End StringFacts.

Section ValueFacts.

Lemma get_get_opt (v : value) (k : string) (x : value) :
  get v k = Return x -> get_opt v k = x.
Proof. destruct v; simpl; congruence. Qed.

Lemma timingSafeEqual_same (a : Buffer.bytes) : timingSafeEqual a a = Return true.
Proof.
  unfold timingSafeEqual. rewrite Nat.eqb_refl. now rewrite bool_decide_eq_true_2.
Qed.

Lemma timingSafeEqual_lengths (a b : Buffer.bytes) :
  length a ≠ length b ->
  timingSafeEqual a b = Throw (RangeError "Input buffers must have the same byte length").
Proof.
  intros H. unfold timingSafeEqual. now apply Nat.eqb_neq in H as ->.
Qed.

End ValueFacts.

(** ** The merging write *)

Section StoreFacts.

Implicit Types (users : collection) (data : list (string * field_value)).

Lemma fields_at_lookup now data (name : string) :
  fields_at now data !! name
  = resolve now <$> (list_to_map data : gmap string field_value) !! name.
Proof.
  unfold fields_at. induction data as [|[k f] data IH]; simpl.
  - now rewrite !lookup_empty.
  - destruct (decide (k = name)) as [->|Hne].
    + now rewrite !lookup_insert_eq.
    + rewrite !lookup_insert_ne by done. apply IH.
Qed.

Lemma merge_lookup now id data users :
  merge now id data users !! id = Some (fields_at now data ∪ default ∅ (users !! id)).
Proof. unfold merge. apply lookup_insert_eq. Qed.

Lemma merge_lookup_other now id id' data users :
  id ≠ id' -> merge now id data users !! id' = users !! id'.
Proof. intros H. unfold merge. now apply lookup_insert_ne. Qed.

(** Writing the same fields again, later, is writing them once, later. *)
Lemma merge_again now1 now2 id data users :
  merge now2 id data (merge now1 id data users) = merge now2 id data users.
Proof.
  unfold merge. rewrite lookup_insert_eq, insert_insert_eq. simpl. f_equal.
  apply map_eq. intros name. rewrite !lookup_union, !fields_at_lookup.
  destruct ((list_to_map data : gmap string field_value) !! name); simpl.
  - now destruct (default ∅ (users !! id) !! name).
  - now destruct (default ∅ (users !! id) !! name).
Qed.

(** A field that the write does not name is kept. *)
Lemma field_merge_frame now id data users id' name :
  name ∉ map fst data -> field (merge now id data users) id' name = field users id' name.
Proof.
  intros Hname. unfold field.
  destruct (decide (id = id')) as [<-|Hne].
  - rewrite merge_lookup, lookup_union, fields_at_lookup.
    rewrite (not_elem_of_list_to_map_1 _ name) by (now rewrite <- list_fmap_compose || exact Hname).
    simpl. destruct (users !! id); simpl.
    + now destruct (g !! name).
    + now rewrite lookup_empty.
  - now rewrite merge_lookup_other.
Qed.

(** A field that the write names with a plain value does not depend on the
    time of the write. *)
Lemma field_merge_plain now now' id data users id' name :
  (forall k, (k, ServerTimestamp) ∈ data -> k ≠ name) ->
  field (merge now id data users) id' name = field (merge now' id data users) id' name.
Proof.
  intros Hplain. unfold field.
  destruct (decide (id = id')) as [<-|Hne].
  - rewrite !merge_lookup, !lookup_union, !fields_at_lookup.
    destruct ((list_to_map data : gmap string field_value) !! name) as [f|] eqn:Hf; simpl; [|done].
    apply elem_of_list_to_map_2 in Hf. destruct f as [v|]; [done|].
    now destruct (Hplain name Hf).
  - now rewrite !merge_lookup_other.
Qed.

End StoreFacts.

Import Buffer Crypto.

(** ** Signature verification *)

Section Verification.

Implicit Types (body signature secret : string).

Lemma truthy_string_Some (s : option string) :
  truthy_string s = true <-> exists t, s = Some t /\ t <> "".
Proof.
  destruct s as [t|]; simpl.
  - rewrite negb_true_iff, String.eqb_neq. split.
    + intros H. now exists t.
    + now intros (t' & [= <-] & H).
  - split; [discriminate | now intros (t & H & _)].
Qed.

Lemma truthy_string_nonempty (t : string) : t <> "" -> truthy_string (Some t) = true.
Proof. intros H. apply truthy_string_Some. now exists t. Qed.

Lemma hmac_hex_nonempty secret (data : Buffer.bytes) : hmac_hex secret data <> "".
Proof.
  intros H. pose proof (length_hmac_hex secret data) as Hl. rewrite H in Hl. discriminate.
Qed.

(** part_000: the buffers are compared when their lengths agree, and the
    exception of [timingSafeEqual] leaves the function otherwise. *)
Lemma strict_verify_cases body signature secret :
  Strict.verifySignature (Some body) (Some signature) (Some secret)
  = if Nat.eqb (String.length signature) 64
    then Return (bool_decide (signature = hmac_hex secret (from body)))
    else Throw (RangeError "Input buffers must have the same byte length").
Proof.
  unfold Strict.verifySignature, hmac_digest, Buffer_from, timingSafeEqual.
  cbn [and_then fmap option_fmap option_map].
  rewrite !length_from, length_hmac_hex.
  destruct (String.length signature =? 64)%nat; [|reflexivity].
  f_equal. apply bool_decide_ext. split; [apply from_inj | now intros ->].
Qed.

(** webhook.js, second document: the function returns true for the digest
    and false for anything else, the exception being caught. *)
Lemma lenient_verify_cases body signature secret :
  secret <> "" ->
  Lenient.verifySignature (Some body) (Some signature) (Some secret)
  = bool_decide (signature = hmac_hex secret (from body)).
Proof.
  intros Hsecret. unfold Lenient.verifySignature.
  rewrite (truthy_string_nonempty secret Hsecret).
  destruct (truthy_string (Some signature)) eqn:Hsig; simpl.
  - change (try_or (Strict.verifySignature (Some body) (Some signature) (Some secret))
                   (fun _ => false) = bool_decide (signature = hmac_hex secret (from body))).
    rewrite strict_verify_cases.
    destruct (String.length signature =? 64)%nat eqn:Hl; [reflexivity |]. simpl.
    symmetry. apply bool_decide_eq_false_2. intros ->.
    rewrite length_hmac_hex in Hl. discriminate.
  - symmetry. apply bool_decide_eq_false_2. intros ->.
    apply negb_false_iff, String.eqb_eq in Hsig. now apply hmac_hex_nonempty in Hsig.
Qed.

End Verification.

(** The exception of [timingSafeEqual] leaves [verifySignature] of
    part_000 when a high bit of the signature is flipped: the mutated
    signature is longer than the digest. *)
Lemma strict_verify_throws_on_high_bit (body secret : string) (i k : nat) :
  let digest := hmac_hex secret (from body) in
  (i < String.length digest)%nat -> (7 <= k < 16)%nat ->
  Strict.verifySignature (Some body) (Some (mutate digest i k)) (Some secret)
  = Throw (RangeError "Input buffers must have the same byte length").
Proof.
  intros digest Hi [Hk Hk'].
  destruct (mutate_cases digest i k (hmac_hex_is_ascii _ _) Hi Hk') as (_ & _ & Hlong).
  specialize (Hlong Hk). unfold digest in Hlong at 1. rewrite length_hmac_hex in Hlong.
  rewrite strict_verify_cases.
  destruct (Nat.eqb_spec (String.length (mutate digest i k)) 64); [lia | reflexivity].
Qed.

Lemma mutations_all (s : string) (i k : nat) :
  (i < String.length s)%nat -> (k < 16)%nat -> mutate s i k ∈ mutations s.
Proof.
  intros Hi Hk. unfold mutations. apply list_elem_of_In, in_flat_map.
  exists i. split; [apply in_seq; lia |].
  apply in_map, in_seq. lia.
Qed.

Lemma digest_is_its_own_spec (secret body : string) (i k : nat) :
  digest_is_its_own secret body = true ->
  (i < String.length body)%nat -> (k < 16)%nat ->
  hmac_hex secret (from (mutate body i k)) <> hmac_hex secret (from body).
Proof.
  unfold digest_is_its_own. rewrite forallb_forall. intros Hall Hi Hk.
  specialize (Hall (mutate body i k)
                (proj1 (list_elem_of_In _ _) (mutations_all body i k Hi Hk))).
  apply negb_true_iff in Hall. now apply String.eqb_neq.
Qed.

Lemma sample_bodies_checked :
  digest_is_its_own Sample.secret Delivery.empty_object = true
  /\ digest_is_its_own Sample.secret Delivery.empty_array = true.
Proof. split; vm_cast_no_check (eq_refl true). Qed.

(** C4.  For every body and every secret that is not empty, both
    [verifySignature] functions return true on the hexadecimal HMAC-SHA256
    of the body.  On a single-bit mutation of that signature the function
    of webhook.js returns false; the function of part_000 returns false when
    the bit is one of the seven low ones of its character, and throws when
    it is a higher one: the mutated character then takes two or three bytes,
    and the comparison is of buffers of different lengths.  On every
    single-bit mutation of two sample bodies both functions return false. *)
Theorem digest_verifies_and_mutations_do_not (body secret : string) :
  secret <> "" ->
  let digest := hmac_hex secret (from body) in
  (Lenient.verifySignature (Some body) (Some digest) (Some secret) = true
   /\ Strict.verifySignature (Some body) (Some digest) (Some secret) = Return true)
  /\ (forall i k, (i < String.length digest)%nat -> (k < 16)%nat ->
        Lenient.verifySignature (Some body) (Some (mutate digest i k)) (Some secret) = false
        /\ ((k < 7)%nat ->
            Strict.verifySignature (Some body) (Some (mutate digest i k)) (Some secret)
            = Return false)
        /\ ((7 <= k)%nat ->
            Strict.verifySignature (Some body) (Some (mutate digest i k)) (Some secret)
            = Throw (RangeError "Input buffers must have the same byte length")))
  /\ (forall sample i k,
        sample = Delivery.empty_object \/ sample = Delivery.empty_array ->
        (i < String.length sample)%nat -> (k < 16)%nat ->
        let signature := hmac_hex Sample.secret (from sample) in
        Lenient.verifySignature (Some (mutate sample i k)) (Some signature)
          (Some Sample.secret) = false
        /\ Strict.verifySignature (Some (mutate sample i k)) (Some signature)
             (Some Sample.secret) = Return false).
Proof.
  intros Hsecret digest. split; [split | split].
  - rewrite lenient_verify_cases by exact Hsecret. now apply bool_decide_eq_true_2.
  - rewrite strict_verify_cases. unfold digest. rewrite length_hmac_hex, Nat.eqb_refl.
    now rewrite bool_decide_eq_true_2.
  - intros i k Hi Hk.
    destruct (mutate_cases digest i k (hmac_hex_is_ascii _ _) Hi Hk) as (Hne & Hlow & _).
    split; [| split].
    + rewrite lenient_verify_cases by exact Hsecret.
      now apply bool_decide_eq_false_2.
    + intros H7. rewrite strict_verify_cases, (Hlow H7). unfold digest at 1.
      rewrite length_hmac_hex, Nat.eqb_refl. f_equal.
      now apply bool_decide_eq_false_2.
    + intros H7. apply strict_verify_throws_on_high_bit; [exact Hi | lia].
  - intros sample i k Hsample Hi Hk signature.
    assert (Hsample_secret : Sample.secret <> "") by discriminate.
    assert (Hdiffer : hmac_hex Sample.secret (from (mutate sample i k)) <> signature).
    { destruct sample_bodies_checked as [Hempty Horder].
      destruct Hsample as [-> | ->]; now apply digest_is_its_own_spec. }
    split.
    + rewrite lenient_verify_cases by exact Hsample_secret.
      apply bool_decide_eq_false_2. congruence.
    + rewrite strict_verify_cases. unfold signature at 1.
      rewrite length_hmac_hex, Nat.eqb_refl. f_equal.
      apply bool_decide_eq_false_2. congruence.
Qed.

Lemma digest_verifies_and_mutations_do_not_witness :
  let digest := hmac_hex Sample.secret (from Sample.order_text) in
  Sample.secret <> ""
  /\ Strict.verifySignature (Some Sample.order_text) (Some digest) (Some Sample.secret)
     = Return true
  /\ Strict.verifySignature (Some Sample.order_text) (Some (mutate digest 0 0))
       (Some Sample.secret) = Return false
  /\ Lenient.verifySignature (Some Sample.order_text) (Some (mutate digest 63 7))
       (Some Sample.secret) = false
  /\ Strict.verifySignature (Some Sample.order_text) (Some (mutate digest 63 7))
       (Some Sample.secret)
     = Throw (RangeError "Input buffers must have the same byte length").
Proof.
  intros digest.
  assert (Hs : Sample.secret <> "") by discriminate.
  assert (H0 : (0 < String.length digest)%nat)
    by (unfold digest; rewrite length_hmac_hex; lia).
  assert (H63 : (63 < String.length digest)%nat)
    by (unfold digest; rewrite length_hmac_hex; lia).
  destruct (digest_verifies_and_mutations_do_not Sample.order_text Sample.secret Hs)
    as ((_ & Hd) & Hsig & _).
  split; [exact Hs |]. split; [exact Hd |]. split; [| split].
  - apply (Hsig 0%nat 0%nat H0); lia.
  - apply (Hsig 63%nat 7%nat H63). lia.
  - apply (Hsig 63%nat 7%nat H63); lia.
Defined.

(** ** Samples and ids *)

Lemma ada_is_a_document_id : document_id "ada@example.com".
Proof.
  unfold document_id.
  split; [discriminate |]. split; [reflexivity |]. split; [discriminate |].
  split; [discriminate |]. split; [reflexivity |]. simpl. lia.
Defined.

(** ** Running a handler *)

Lemma post_eqb (m : string) : m = "POST" -> negb (m =? "POST")%string = false.
Proof. now intros ->. Qed.


Lemma doc_Return (v : value) (id : string) : doc v = Return id -> v = VStr id.
Proof.
  destruct v as [| | | |s| |]; simpl; try discriminate.
  destruct (s =? "")%string; [discriminate | congruence].
Qed.

(** The lines of part_000 up to the dispatch, for a verified request. *)
Ltac strict_prelude H :=
  let Hm := fresh "Hm" in
  let Hsig := fresh "Hsig" in
  let Hsec := fresh "Hsec" in
  let Hver := fresh "Hver" in
  destruct H as (Hm & Hsig & Hsec & Hver);
  unfold Strict.handler, try_catch, bind, lift, ret;
  rewrite (post_eqb _ Hm), Hsig, Hsec, Hver;
  cbn [negb orb andb].

(** The same for webhook.js (second document), with or without a
    signature. *)
Ltac lenient_prelude H :=
  let Hm := fresh "Hm" in
  let Hsec := fresh "Hsec" in
  let Hver := fresh "Hver" in
  destruct H as (Hm & Hsec & Hver);
  unfold Lenient.handler, try_catch, bind, lift, ret;
  rewrite (post_eqb _ Hm), Hsec;
  cbn [negb];
  let T := fresh "Tsig" in
  destruct (truthy_string (x_signature _)) eqn:T;
  [rewrite (Hver eq_refl) |];
  cbn [negb orb andb].

(** The body is an object once one of its fields is known, and so are its
    attributes. *)
Ltac open_event req :=
  unfold Event.event_name, Event.user_email, Event.status, Event.product_name,
    Event.id, Event.attributes in *;
  destruct (body req) as [| | | | | |fields]; try discriminate;
  cbn [get get_opt] in *.

Ltac open_attributes fields :=
  destruct (get_opt (own fields "data") "attributes") as [| | | | | |attrs];
  try discriminate; cbn [get get_opt] in *.

Ltac literal := cbn [is_string String.eqb Ascii.eqb Bool.eqb andb orb].

Ltac distinct_names := apply (bool_decide_unpack _); vm_compute; exact I.

(** Closed goals, by evaluation. *)
Ltac evaluate := vm_compute; reflexivity.

Ltac evaluate_all :=
  repeat match goal with |- _ /\ _ => split end; evaluate.

Ltac in_names := repeat (apply elem_of_cons; first [left; reflexivity | right]).

(** One case analysis on what the handler branches on. *)
Ltac step :=
  match goal with
  | |- context [match ?x with _ => _ end] =>
      lazymatch x with
      | context [merge] => fail
      | _ => destruct x eqn:?
      end
  | |- context [if ?x then _ else _] => destruct x eqn:?
  end.

Ltac cases := repeat first [step | progress cbn [negb andb orb fst snd]].

Ltac member_cases Hk :=
  repeat (apply elem_of_cons in Hk as [Hk | Hk];
          [first [discriminate Hk | injection Hk as ->; in_names | subst; in_names] |]);
  now apply elem_of_nil in Hk.

Ltac no_write := eexists _, Nothing; split; [intros; reflexivity | exact I].

Ltac one_write :=
  eexists _, (Merged _ _); split; [intros; reflexivity |];
  cbn [stamps_within writes_within map fst];
  try (split; [erewrite get_get_opt by eassumption; apply doc_Return; eassumption |]);
  let k := fresh "k" in
  let Hk := fresh "Hk" in
  intros k Hk; member_cases Hk.

Ltac write_cases := cases; first [no_write | one_write].

(** ** Requests that are refused, and requests that are not *)

(** part_000 refuses, and writes nothing, unless the signature is the
    digest of the re-serialised body. *)
Lemma strict_refuses_unverified
    (env : environment) (now : Z) (req : request) (users : collection) :
  method req = "POST" ->
  (forall text secret,
     JSON.stringify (body req) = Some text ->
     LEMON_SQUEEZY_WEBHOOK_SECRET env = Some secret ->
     x_signature req <> Some (hmac_hex secret (from text))) ->
  exists r, Strict.handler env now req users = (Return r, users) /\ refusal r.
Proof.
  intros Hm Hbad. unfold Strict.handler. rewrite (post_eqb _ Hm).
  unfold try_catch, bind, lift, ret, refusal.
  destruct (x_signature req) as [signature|]; [| eexists; split; [reflexivity | now left]].
  destruct (LEMON_SQUEEZY_WEBHOOK_SECRET env) as [secret|];
    [| destruct (truthy_string (Some signature));
       eexists; (split; [reflexivity | now left])].
  destruct (negb (truthy_string (Some signature)) || negb (truthy_string (Some secret)));
    [eexists; split; [reflexivity | now left] |].
  destruct (JSON.stringify (body req)) as [text|];
    [| eexists; split; [reflexivity | now right]].
  rewrite strict_verify_cases.
  destruct (String.length signature =? 64)%nat;
    [| eexists; split; [reflexivity | now right]].
  rewrite bool_decide_eq_false_2; [eexists; split; [reflexivity | now left] |].
  intros ->. now apply (Hbad text secret).
Qed.

(** webhook.js (second document) refuses a signature that is there and is
    not the digest of the re-serialised body. *)
Lemma lenient_refuses_mismatch
    (env : environment) (now : Z) (req : request) (users : collection)
    (signature : string) :
  method req = "POST" ->
  x_signature req = Some signature -> signature <> "" ->
  (forall text secret,
     JSON.stringify (body req) = Some text ->
     LEMON_SQUEEZY_WEBHOOK_SECRET env = Some secret ->
     signature <> hmac_hex secret (from text)) ->
  exists r, Lenient.handler env now req users = (Return r, users) /\ refusal r.
Proof.
  intros Hm Hsig Hne Hbad. unfold Lenient.handler. rewrite (post_eqb _ Hm), Hsig.
  unfold try_catch, bind, lift, ret, refusal.
  rewrite (truthy_string_nonempty _ Hne).
  destruct (truthy_string (LEMON_SQUEEZY_WEBHOOK_SECRET env)) eqn:Hsec; cbn [negb andb];
    [| eexists; split; [reflexivity | now right]].
  apply truthy_string_Some in Hsec as (secret & Hsec & Hsecret). rewrite Hsec.
  destruct (JSON.stringify (body req)) as [text|].
  - rewrite lenient_verify_cases by exact Hsecret.
    rewrite bool_decide_eq_false_2 by now apply Hbad.
    eexists; split; [reflexivity | now left].
  - unfold Lenient.verifySignature.
    rewrite (truthy_string_nonempty _ Hne), (truthy_string_nonempty _ Hsecret).
    eexists; split; [reflexivity | now left].
Qed.

(** webhook.js (first document) hashes the bytes of the stream as they
    come. *)
Lemma getRawBody_binary (chunks : list Buffer.bytes) :
  RawBody.getRawBody (map Binary chunks) = List.concat chunks.
Proof.
  unfold RawBody.getRawBody, Buffer.concat. f_equal.
  rewrite map_map. apply map_id.
Qed.

(** It refuses a signature that does not decode to their digest. *)
Lemma rawbody_refuses_mismatch
    (env : environment) (now : Z) (req : request) (users : collection)
    (signature secret : string) :
  method req = "POST" ->
  x_signature req = Some signature -> signature <> "" ->
  LEMON_SQUEEZY_WEBHOOK_SECRET env = Some secret -> secret <> "" ->
  from_hex signature <> hmac_sha256 (from secret) (RawBody.getRawBody (stream req)) ->
  exists r, RawBody.handler env now req users = (Return r, users) /\ refusal r.
Proof.
  intros Hm Hsig Hne Hsec Hsecret Hbad. unfold RawBody.handler.
  rewrite (post_eqb _ Hm), Hsig, Hsec.
  rewrite (truthy_string_nonempty _ Hne), (truthy_string_nonempty _ Hsecret).
  unfold try_catch, bind, lift, ret, refusal, hmac_digest. cbn [andb default].
  rewrite from_hex_hmac_hex. unfold timingSafeEqual.
  match goal with
  | |- context [Nat.eqb ?a ?b] => destruct (Nat.eqb a b)
  end; [| eexists; split; [reflexivity | now right]].
  rewrite bool_decide_eq_false_2 by exact Hbad.
  eexists; split; [reflexivity | now left].
Qed.

(** The two versions that hash [JSON.stringify(req.body)] never read the
    stream. *)
Lemma reserialising_handlers_ignore_stream
    (env : environment) (now : Z) (m : string) (signature : option string)
    (chunks chunks' : list chunk) (parsed : value) (users : collection) :
  Strict.handler env now (Request m signature chunks parsed) users
  = Strict.handler env now (Request m signature chunks' parsed) users
  /\ Lenient.handler env now (Request m signature chunks parsed) users
     = Lenient.handler env now (Request m signature chunks' parsed) users.
Proof. split; reflexivity. Qed.

(** With no secret, webhook.js (second document) answers 500 and part_000
    answers 401, whatever the POST. *)
Lemma lenient_unset_secret
    (env : environment) (now : Z) (req : request) (users : collection) :
  method req = "POST" ->
  truthy_string (LEMON_SQUEEZY_WEBHOOK_SECRET env) = false ->
  Lenient.handler env now req users
  = (Return (respond 500 [("error", VStr "Webhook secret not configured")]), users).
Proof.
  intros Hm Hsec. unfold Lenient.handler. now rewrite (post_eqb _ Hm), Hsec.
Qed.

Lemma strict_unset_secret
    (env : environment) (now : Z) (req : request) (users : collection) :
  method req = "POST" ->
  truthy_string (LEMON_SQUEEZY_WEBHOOK_SECRET env) = false ->
  Strict.handler env now req users
  = (Return (respond 401 [("error", VStr "Unauthorized")]), users).
Proof.
  intros Hm Hsec. unfold Strict.handler. rewrite (post_eqb _ Hm), Hsec.
  now rewrite orb_true_r.
Qed.

(** C1 fails in both documents of webhook.js: with the secret set, a POST
    of a paid order that has no x-signature header is answered 200 and the
    record is written. *)
Theorem unsigned_post_is_written (now : Z) (users : collection) :
  let written :=
    (Return (respond 200 [("received", VBool true)]),
     merge now "ada@example.com" Sample.order_data users) in
  x_signature Sample.unsigned_order = None
  /\ truthy_string (LEMON_SQUEEZY_WEBHOOK_SECRET Sample.env) = true
  /\ Lenient.handler Sample.env now Sample.unsigned_order users = written
  /\ RawBody.handler Sample.env now Sample.unsigned_order users = written.
Proof.
  cbv zeta. repeat match goal with |- _ /\ _ => split end; lazy -[merge]; reflexivity.
Qed.

(** C3 fails in webhook.js (first document): with the secret unset, a POST
    of a paid order is answered 200 and the record is written, whatever its
    signature; part_000 refuses it, with 401 and not 500; the second
    document of webhook.js answers 500, as the claim has it. *)
Theorem unset_secret_skips_verification (now : Z) (users : collection) :
  LEMON_SQUEEZY_WEBHOOK_SECRET Sample.unconfigured = None
  /\ RawBody.handler Sample.unconfigured now Sample.short_signature_order users
     = (Return (respond 200 [("received", VBool true)]),
        merge now "ada@example.com" Sample.order_data users)
  /\ Strict.handler Sample.unconfigured now Sample.short_signature_order users
     = (Return (respond 401 [("error", VStr "Unauthorized")]), users)
  /\ Lenient.handler Sample.unconfigured now Sample.short_signature_order users
     = (Return (respond 500 [("error", VStr "Webhook secret not configured")]), users).
Proof.
  cbv zeta. repeat match goal with |- _ /\ _ => split end; lazy -[merge]; reflexivity.
Qed.

(** C2 fails in part_000 and in webhook.js (second document): the bytes
    that are hashed are those of [JSON.stringify(req.body)].  A paid order
    that the provider signs over the bytes it sends, and whose text does not
    survive parsing and re-serialising, is accepted by the first document of
    webhook.js and refused by the other two versions. *)
Theorem reserialised_body_is_what_is_hashed (now : Z) (users : collection) :
  RawBody.getRawBody (stream Sample.signed_order) = from Sample.order_text
  /\ x_signature Sample.signed_order
     = Some (hmac_hex Sample.secret (from Sample.order_text))
  /\ JSON.parse Sample.order_text = Return (body Sample.signed_order)
  /\ JSON.stringify (body Sample.signed_order) <> Some Sample.order_text
  /\ RawBody.handler Sample.env now Sample.signed_order users
     = (Return (respond 200 [("received", VBool true)]),
        merge now "ada@example.com" Sample.order_data users)
  /\ Strict.handler Sample.env now Sample.signed_order users
     = (Return (respond 401 [("error", VStr "Invalid signature")]), users)
  /\ Lenient.handler Sample.env now Sample.signed_order users
     = (Return (respond 401 [("error", VStr "Invalid signature")]), users).
Proof.
  split; [| split; [| split; [| split; [| split; [| split]]]]].
  - evaluate.
  - reflexivity.
  - evaluate.
  - vm_compute. discriminate.
  - assert (Hv : RawBody.verified Sample.env Sample.signed_order Sample.order_event).
    { unfold RawBody.verified. evaluate_all. }
    destruct Hv as (Hm & Hsec & Hsig & Hver & Hparse).
    unfold RawBody.handler. rewrite (post_eqb _ Hm), Hsec, Hsig.
    unfold try_catch, bind, lift, ret, hmac_digest.
    cbn [andb LEMON_SQUEEZY_WEBHOOK_SECRET Sample.env].
    rewrite from_hex_hmac_hex.
    cbn [default LEMON_SQUEEZY_WEBHOOK_SECRET Sample.env] in Hver.
    rewrite Hver, timingSafeEqual_same, Hparse.
    lazy -[merge]. reflexivity.
  - evaluate.
  - evaluate.
Qed.

(** C8 fails in part_000 and in webhook.js (first document): a signature
    of another length than the digest makes [timingSafeEqual] throw, the
    exception reaches the handler's catch, and the answer is 500; the second
    document of webhook.js catches it in [verifySignature] and answers
    401. *)
Theorem wrong_length_signature_escapes
    (env : environment) (now : Z) (req : request) (users : collection)
    (signature secret : string) :
  method req = "POST" ->
  x_signature req = Some signature -> signature <> "" ->
  LEMON_SQUEEZY_WEBHOOK_SECRET env = Some secret -> secret <> "" ->
  (String.length signature <> 64%nat ->
   Strict.handler env now req users
   = (Return (respond 500 [("error", VStr "Internal server error")]), users)
   /\ Lenient.handler env now req users
      = (Return (respond 401 [("error", VStr "Invalid signature")]), users))
  /\ (length (from_hex signature) <> 32%nat ->
      RawBody.handler env now req users
      = (Return (respond 500 [("error", VStr "Internal server error")]), users)).
Proof.
  intros Hm Hsig Hsig' Hsec Hsec'.
  pose proof (truthy_string_nonempty _ Hsig') as Tsig.
  pose proof (truthy_string_nonempty _ Hsec') as Tsec.
  split.
  - intros Hlen. apply Nat.eqb_neq in Hlen. split.
    + unfold Strict.handler. rewrite (post_eqb _ Hm), Hsig, Hsec, Tsig, Tsec.
      unfold try_catch, bind, lift. cbn [negb orb].
      destruct (JSON.stringify (body req)) as [text|].
      * now rewrite strict_verify_cases, Hlen.
      * reflexivity.
    + unfold Lenient.handler. rewrite (post_eqb _ Hm), Hsig, Hsec, Tsig, Tsec.
      unfold try_catch. cbn [negb andb].
      destruct (JSON.stringify (body req)) as [text|].
      * rewrite lenient_verify_cases by exact Hsec'.
        rewrite bool_decide_eq_false_2; [reflexivity |].
        intros ->. rewrite length_hmac_hex in Hlen. discriminate.
      * unfold Lenient.verifySignature. now rewrite Tsig, Tsec.
  - intros Hlen. unfold RawBody.handler.
    rewrite (post_eqb _ Hm), Hsig, Hsec, Tsig, Tsec.
    unfold try_catch, bind, lift, hmac_digest. cbn [andb default].
    rewrite timingSafeEqual_lengths; [reflexivity |].
    now rewrite from_hex_hmac_hex, length_hmac_sha256.
Qed.

(** In webhook.js (first document) the signature is decoded from
    hexadecimal before it is compared: a signature of 65 characters that
    starts with the digest decodes to the digest, and is accepted. *)
Lemma rawbody_accepts_padded_signature (now : Z) (users : collection) :
  RawBody.handler Sample.env now Sample.padded_signature_order users
  = (Return (respond 200 [("received", VBool true)]),
     merge now "ada@example.com" Sample.order_data users).
Proof.
  assert (Hv : RawBody.verified Sample.env Sample.padded_signature_order Sample.order_event).
  { unfold RawBody.verified. evaluate_all. }
  destruct Hv as (Hm & Hsec & Hsig & Hver & Hparse).
  unfold RawBody.handler. rewrite (post_eqb _ Hm), Hsec, Hsig.
  unfold try_catch, bind, lift, ret, hmac_digest.
  cbn [andb LEMON_SQUEEZY_WEBHOOK_SECRET Sample.env].
  rewrite from_hex_hmac_hex.
  cbn [default LEMON_SQUEEZY_WEBHOOK_SECRET Sample.env] in Hver.
  rewrite Hver, timingSafeEqual_same, Hparse.
  lazy -[merge]. reflexivity.
Qed.

Lemma wrong_length_signature_escapes_witness :
  String.length "abc" <> 64%nat
  /\ length (from_hex "abc") <> 32%nat
  /\ Strict.handler Sample.env 0 Sample.short_signature_order Sample.users0
     = (Return (respond 500 [("error", VStr "Internal server error")]), Sample.users0)
  /\ RawBody.handler Sample.env 0 Sample.short_signature_order Sample.users0
     = (Return (respond 500 [("error", VStr "Internal server error")]), Sample.users0).
Proof.
  assert (H1 : String.length "abc" <> 64%nat) by (simpl; lia).
  assert (H2 : length (from_hex "abc") <> 32%nat) by (simpl; lia).
  assert (Hsig : "abc" <> "") by discriminate.
  assert (Hsec : Sample.secret <> "") by discriminate.
  destruct (wrong_length_signature_escapes Sample.env 0 Sample.short_signature_order
              Sample.users0 "abc" Sample.secret eq_refl eq_refl Hsig eq_refl Hsec)
    as [Hs Hr].
  split; [exact H1 |]. split; [exact H2 |]. split; [exact (proj1 (Hs H1)) |].
  exact (Hr H2).
Defined.

(** ** Events that are projected *)

(** The two product names of the specification's examples. *)
Example yearly_plan : includes (toLowerCase "Pro Yearly Plan") "yearly" = true.
Proof. reflexivity. Qed.

Example lifetime_plan : includes (toLowerCase "Pro Lifetime Plan") "yearly" = false.
Proof. reflexivity. Qed.

Lemma field_merge_named now id (data : list (string * field_value)) (users : collection) k f :
  NoDup (map fst data) -> (k, f) ∈ data ->
  field (merge now id data users) id k = Some (resolve now f).
Proof.
  intros Hnd Hin. unfold field.
  rewrite merge_lookup, lookup_union, fields_at_lookup.
  rewrite (elem_of_list_to_map_1 data k f Hnd Hin). simpl.
  now destruct (default ∅ (users !! id) !! k).
Qed.

Lemma strict_writes_paid_order
    (env : environment) (now : Z) (req : request) (users : collection)
    (email name id : string) :
  Event.event_name (body req) = VStr "order_created" ->
  Event.status (body req) = VStr "paid" ->
  Event.user_email (body req) = VStr email -> document_id email ->
  Event.product_name (body req) = VStr name ->
  Event.id (body req) = VStr id ->
  Strict.verified env req ->
  Strict.handler env now req users
  = (Return (respond 200 [("received", VBool true)]),
     merge now email (order_fields email (subscription_type name) id name) users).
Proof.
  intros Hname Hstatus Hemail [Hne _] Hproduct Hid H.
  apply String.eqb_neq in Hne.
  strict_prelude H. open_event req. rewrite Hname. literal.
  open_attributes fields. rewrite Hstatus. literal.
  rewrite Hproduct, Hemail, Hid.
  unfold set_merge, doc, call_toLowerCase. rewrite Hne. reflexivity.
Qed.


Lemma order_field_written now email subscriptionType id name (users : collection) k f :
  (k, f) ∈ order_fields email subscriptionType id name ->
  field (merge now email (order_fields email subscriptionType id name) users) email k
  = Some (resolve now f).
Proof. apply field_merge_named. distinct_names. Qed.




Lemma strict_writes_update
    (env : environment) (now : Z) (req : request) (users : collection)
    (email status : string) :
  Event.event_name (body req) = VStr "subscription_updated" ->
  Event.user_email (body req) = VStr email -> document_id email ->
  Event.status (body req) = VStr status ->
  Strict.verified env req ->
  Strict.handler env now req users
  = (Return (respond 200 [("received", VBool true)]),
     merge now email (update_fields email (subscription_of status) status) users).
Proof.
  intros Hname Hemail [Hne _] Hstatus H.
  apply String.eqb_neq in Hne.
  strict_prelude H. open_event req. rewrite Hname. literal.
  open_attributes fields. rewrite Hemail, Hstatus.
  unfold set_merge, doc. rewrite Hne. reflexivity.
Qed.

Lemma lenient_writes_update
    (env : environment) (now : Z) (req : request) (users : collection)
    (email status : string) :
  Event.event_name (body req) = VStr "subscription_updated" ->
  Event.user_email (body req) = VStr email -> document_id email ->
  Event.status (body req) = VStr status ->
  Lenient.passes env req ->
  Lenient.handler env now req users
  = (Return (respond 200 [("received", VBool true)]),
     merge now email (update_fields email (subscription_of status) status) users).
Proof.
  intros Hname Hemail [Hne _] Hstatus H.
  apply String.eqb_neq in Hne.
  lenient_prelude H; open_event req; rewrite Hname; literal;
  open_attributes fields; rewrite Hemail, Hstatus;
  unfold set_merge, doc; rewrite Hne; reflexivity.
Qed.

Lemma update_field_written now email subscription status (users : collection) k f :
  (k, f) ∈ update_fields email subscription status ->
  field (merge now email (update_fields email subscription status) users) email k
  = Some (resolve now f).
Proof. apply field_merge_named. distinct_names. Qed.

(** C6, as amended.  For every verified subscription_updated event whose
    user_email is a string that the store takes as a document id and whose
    status is a string, part_000 and webhook.js (second document) answer 200
    and make one merging write into the record of user_email, after which
    the record reads: subscription premium exactly when the status is
    active or on_trial and free for every other status, subscriptionStatus
    the status as received, and lastUpdated the server's time. *)
Theorem subscription_update_is_projected
    (env : environment) (now : Z) (req : request) (users : collection)
    (email status : string) :
  Event.event_name (body req) = VStr "subscription_updated" ->
  Event.user_email (body req) = VStr email -> document_id email ->
  Event.status (body req) = VStr status ->
  exists subscription,
    (subscription = "premium" /\ (status = "active" \/ status = "on_trial")
     \/ subscription = "free" /\ status <> "active" /\ status <> "on_trial")
    /\ let data :=
         [("email", Plain (VStr email));
          ("subscription", Plain (VStr subscription));
          ("subscriptionStatus", Plain (VStr status));
          ("lastUpdated", ServerTimestamp)] in
       let written :=
         (Return (respond 200 [("received", VBool true)]), merge now email data users) in
       (Strict.verified env req -> Strict.handler env now req users = written)
       /\ (Lenient.verified env req -> Lenient.handler env now req users = written)
       /\ field (snd written) email "email" = Some (Stored (VStr email))
       /\ field (snd written) email "subscription" = Some (Stored (VStr subscription))
       /\ field (snd written) email "subscriptionStatus" = Some (Stored (VStr status))
       /\ field (snd written) email "lastUpdated" = Some (Timestamp now).
Proof.
  intros Hname Hemail Hdoc Hstatus.
  exists (subscription_of status). split.
  - unfold subscription_of.
    destruct (String.eqb_spec status "active") as [-> | Ha];
      [left; split; [reflexivity | now left] |].
    destruct (String.eqb_spec status "on_trial") as [-> | Ht];
      [left; split; [reflexivity | now right] |].
    right. cbn [orb]. split; [reflexivity | split; assumption].
  - cbn zeta. fold (update_fields email (subscription_of status) status). cbn [snd].
    split; [now apply strict_writes_update |].
    split; [intros [H _]; now apply lenient_writes_update |].
    repeat match goal with |- _ /\ _ => split end;
      (erewrite update_field_written by in_names; reflexivity).
Qed.

Lemma subscription_update_is_projected_witness :
  let trial := Sample.resigned (Sample.update_event "on_trial") in
  let cancelled := Sample.resigned (Sample.update_event "cancelled") in
  Strict.verified Sample.env trial
  /\ Strict.verified Sample.env cancelled
  /\ document_id "ada@example.com"
  /\ field (snd (Strict.handler Sample.env 1700000600 trial Sample.users0))
       "ada@example.com" "subscription" = Some (Stored (VStr "premium"))
  /\ field (snd (Strict.handler Sample.env 1700000600 cancelled Sample.users0))
       "ada@example.com" "subscription" = Some (Stored (VStr "free")).
Proof.
  intros trial cancelled.
  assert (Ht : Strict.verified Sample.env trial) by (unfold Strict.verified; evaluate_all).
  assert (Hc : Strict.verified Sample.env cancelled)
    by (unfold Strict.verified; evaluate_all).
  split; [exact Ht |]. split; [exact Hc |]. split; [exact ada_is_a_document_id |]. split.
  - destruct (subscription_update_is_projected Sample.env 1700000600 trial Sample.users0
                "ada@example.com" "on_trial" eq_refl eq_refl ada_is_a_document_id eq_refl)
      as (subscription & Hsub & Hstrict & _ & _ & Hfield & _).
    rewrite (Hstrict Ht).
    destruct Hsub as [[-> _] | [_ [_ Hno]]];
      [exact Hfield | exfalso; apply Hno; reflexivity].
  - destruct (subscription_update_is_projected Sample.env 1700000600 cancelled
                Sample.users0 "ada@example.com" "cancelled" eq_refl eq_refl
                ada_is_a_document_id eq_refl)
      as (subscription & Hsub & Hstrict & _ & _ & Hfield & _).
    rewrite (Hstrict Hc).
    destruct Hsub as [[_ [Hyes | Hyes]] | [-> _]];
      [discriminate Hyes | discriminate Hyes | exact Hfield].
Defined.

(** C6, as stated, fails in part_000: a verified subscription_updated event
    that carries no status is answered 500, and nothing is written, where
    the claim has subscription free written for every status that is not
    active or on_trial: the store client refuses the undefined status. *)
Lemma update_without_status_is_refused :
  let req := Sample.resigned Delivery.update_without_status in
  Strict.verified Sample.env req
  /\ Event.event_name (body req) = VStr "subscription_updated"
  /\ Event.status (body req) = VUndefined
  /\ Strict.handler Sample.env 1700000600 req Sample.users0
     = (Return (respond 500 [("error", VStr "Internal server error")]), Sample.users0).
Proof.
  intros req.
  assert (Hv : Strict.verified Sample.env req) by (unfold Strict.verified; evaluate_all).
  split; [exact Hv |]. split; [reflexivity |]. split; [reflexivity |].
  destruct Hv as (Hm & Hsig & Hsec & Hver).
  generalize Sample.users0. intros users.
  unfold Strict.handler, try_catch, bind, lift, ret.
  rewrite (post_eqb _ Hm), Hsig, Hsec, Hver. vm_compute. reflexivity.
Qed.

(** ** Events without attributes *)

(** C10.  For every POST that passes signature verification and whose
    data.attributes is not an object: when event_name is
    subscription_created or subscription_updated, part_000 and webhook.js
    (second document) answer 500 and write nothing; when it is
    order_created, they answer 200 and write nothing. *)
Theorem event_without_attributes
    (env : environment) (now : Z) (req : request) (users : collection) (name : string) :
  Event.event_name (body req) = VStr name ->
  Event.is_object (Event.attributes (body req)) = false ->
  (Strict.verified env req ->
   (name = "subscription_created" \/ name = "subscription_updated" ->
    Strict.handler env now req users
    = (Return (respond 500 [("error", VStr "Internal server error")]), users))
   /\ (name = "order_created" ->
       Strict.handler env now req users
       = (Return (respond 200 [("received", VBool true)]), users)))
  /\ (Lenient.passes env req ->
      (name = "subscription_created" \/ name = "subscription_updated" ->
       exists details,
         Lenient.handler env now req users
         = (Return (respond 500 [("error", VStr "Internal server error");
                                 ("details", VStr details)]), users))
      /\ (name = "order_created" ->
          Lenient.handler env now req users
          = (Return (respond 200 [("received", VBool true)]), users))).
Proof.
  intros Hname Hattrs. split.
  - intros H. strict_prelude H. open_event req. rewrite Hname.
    split.
    + intros [-> | ->]; literal;
      destruct (get_opt (own fields "data") "attributes"); try discriminate; reflexivity.
    + intros ->. literal.
      destruct (get_opt (own fields "data") "attributes"); try discriminate; reflexivity.
  - intros H. lenient_prelude H; open_event req; rewrite Hname.
    all: split;
      [ intros [-> | ->]; literal;
        destruct (get_opt (own fields "data") "attributes"); try discriminate;
        eexists; reflexivity
      | intros ->; literal;
        destruct (get_opt (own fields "data") "attributes"); try discriminate;
        reflexivity ].
Qed.

Lemma event_without_attributes_witness :
  let update := Sample.resigned (Sample.bare_event "subscription_updated") in
  let order := Sample.resigned (Sample.bare_event "order_created") in
  Strict.verified Sample.env update
  /\ Strict.verified Sample.env order
  /\ Event.attributes (body update) = VUndefined
  /\ Strict.handler Sample.env 1700000600 update Sample.users0
     = (Return (respond 500 [("error", VStr "Internal server error")]), Sample.users0)
  /\ Strict.handler Sample.env 1700000600 order Sample.users0
     = (Return (respond 200 [("received", VBool true)]), Sample.users0).
Proof.
  intros update order.
  assert (Hu : Strict.verified Sample.env update)
    by (unfold Strict.verified; evaluate_all).
  assert (Ho : Strict.verified Sample.env order)
    by (unfold Strict.verified; evaluate_all).
  split; [exact Hu |]. split; [exact Ho |]. split; [reflexivity |]. split.
  - destruct (event_without_attributes Sample.env 1700000600 update Sample.users0
                "subscription_updated" eq_refl eq_refl) as [Hs _].
    apply (Hs Hu). now right.
  - destruct (event_without_attributes Sample.env 1700000600 order Sample.users0
                "order_created" eq_refl eq_refl) as [Hs _].
    now apply (Hs Ho).
Defined.

(** ** What a request writes *)

(** A subscription_updated request writes nothing, or the four fields of
    the update into the record of user_email. *)
Lemma strict_update_effect (env : environment) (req : request) :
  Event.event_name (body req) = VStr "subscription_updated" ->
  exists r e,
    (forall now users, Strict.handler env now req users = (Return r, commit e now users))
    /\ writes_within ["email"; "subscription"; "subscriptionStatus"; "lastUpdated"]
         (Event.user_email (body req)) e.
Proof.
  intros Hname. unfold Strict.handler.
  destruct (negb (method req =? "POST")%string); [no_write |].
  unfold try_catch, bind, lift, ret, set_merge.
  open_event req. rewrite Hname. literal. write_cases.
Qed.

Lemma lenient_update_effect (env : environment) (req : request) :
  Event.event_name (body req) = VStr "subscription_updated" ->
  exists r e,
    (forall now users, Lenient.handler env now req users = (Return r, commit e now users))
    /\ writes_within ["email"; "subscription"; "subscriptionStatus"; "lastUpdated"]
         (Event.user_email (body req)) e.
Proof.
  intros Hname. unfold Lenient.handler.
  destruct (negb (method req =? "POST")%string); [no_write |].
  unfold try_catch, bind, lift, ret, set_merge.
  open_event req. rewrite Hname. literal. write_cases.
Qed.

Lemma commit_frame (names : list string) (email : value) (e : effect)
    (now : Z) (users : collection) :
  writes_within names email e ->
  (forall id name, name ∉ names -> field (commit e now users) id name = field users id name)
  /\ (forall id, email <> VStr id -> commit e now users !! id = users !! id).
Proof.
  destruct e as [|id' data]; simpl; [now intros _ |].
  intros [-> Hnames]. split.
  - intros id name Hname. apply field_merge_frame. intros Hin. apply Hname, Hnames, Hin.
  - intros id Hid. apply merge_lookup_other. congruence.
Qed.

(** C9.  For every subscription_updated event and every prior state of the
    records, what part_000 and webhook.js (second document) leave behind
    differs from the prior state at most in the fields email, subscription,
    subscriptionStatus and lastUpdated: every other stored field, of
    whatever record, is as before. *)
Theorem subscription_update_frame
    (env : environment) (now : Z) (req : request) (users users' : collection) :
  Event.event_name (body req) = VStr "subscription_updated" ->
  users' = snd (Strict.handler env now req users)
  \/ users' = snd (Lenient.handler env now req users) ->
  forall id name,
    name ∉ ["email"; "subscription"; "subscriptionStatus"; "lastUpdated"] ->
    field users' id name = field users id name.
Proof.
  intros Hname [-> | ->].
  - destruct (strict_update_effect env req Hname) as (r & e & -> & He).
    exact (proj1 (commit_frame _ _ _ now users He)).
  - destruct (lenient_update_effect env req Hname) as (r & e & -> & He).
    exact (proj1 (commit_frame _ _ _ now users He)).
Qed.

Lemma subscription_update_frame_witness :
  let req := Sample.resigned (Sample.update_event "cancelled") in
  let users' := snd (Strict.handler Sample.env 1700000600 req Sample.users0) in
  Event.event_name (body req) = VStr "subscription_updated"
  /\ field users' "ada@example.com" "subscriptionType" = Some (Stored (VStr "lifetime"))
  /\ field users' "ada@example.com" "purchaseDate" = Some (Timestamp 1700000000)
  /\ field users' "ada@example.com" "productName" = Some (Stored (VStr "Pro Lifetime Plan")).
Proof.
  intros req users'.
  assert (Hname : Event.event_name (body req) = VStr "subscription_updated")
    by reflexivity.
  pose proof (subscription_update_frame Sample.env 1700000600 req Sample.users0 users'
                Hname (or_introl eq_refl)) as Hframe.
  split; [exact Hname |].
  repeat match goal with |- _ /\ _ => split end;
    (rewrite Hframe; [evaluate | distinct_names]).
Defined.

Lemma commit_again (e : effect) (now1 now2 : Z) (users : collection) :
  commit e now2 (commit e now1 users) = commit e now2 users.
Proof. destruct e; simpl; [reflexivity | apply merge_again]. Qed.

Lemma commit_plain (e : effect) (now now' : Z) (users : collection) (id name : string) :
  stamps_within ["purchaseDate"] e -> name <> "purchaseDate" ->
  field (commit e now users) id name = field (commit e now' users) id name.
Proof.
  destruct e as [|id' data]; simpl; [reflexivity |].
  intros Hstamps Hname. apply field_merge_plain.
  intros k Hk. apply Hstamps, elem_of_cons in Hk as [-> | Hk]; [congruence |].
  now apply elem_of_nil in Hk.
Qed.

Ltac order_write :=
  first
    [ eexists _, Nothing; split; [intros ? ?; reflexivity |];
      split; exact I
    | eexists _, (Merged _ _); split; [intros ? ?; reflexivity |];
      split;
      [ cbn [stamps_within];
        let k := fresh "k" in
        let Hk := fresh "Hk" in
        intros k Hk; member_cases Hk
      | cbn [dated]; split; [distinct_names | in_names] ] ].

Lemma strict_order_write (env : environment) (req : request) :
  Event.event_name (body req) = VStr "order_created" ->
  exists r e,
    comes_to (fun now => Strict.handler env now req) r e
    /\ stamps_within ["purchaseDate"] e /\ dated e.
Proof.
  intros Hname. unfold comes_to, Strict.handler.
  destruct (negb (method req =? "POST")%string); [order_write |].
  unfold try_catch, bind, lift, ret, set_merge.
  open_event req. rewrite Hname. literal. cases; order_write.
Qed.

Lemma rawbody_order_write (env : environment) (req : request) :
  exists r e,
    comes_to (fun now => RawBody.handler env now req) r e
    /\ stamps_within ["purchaseDate"] e /\ dated e.
Proof.
  unfold comes_to, RawBody.handler.
  destruct (negb (method req =? "POST")%string); [order_write |].
  unfold try_catch, bind, lift, ret, set_merge. cases; order_write.
Qed.

Lemma absorbed (h : Z -> M response) (r : response) (e : effect) :
  comes_to h r e -> stamps_within ["purchaseDate"] e -> dated e ->
  redelivery_is_absorbed h.
Proof.
  intros Hrun Hstamps Hdated. exists r, e. split; [exact Hrun |].
  intros users now1 now2. cbn zeta. rewrite !Hrun. cbn [snd].
  rewrite commit_again. split; [reflexivity |]. split.
  - intros id name Hname. now apply commit_plain.
  - intros id data -> _. destruct Hdated as [Hnodup Hin]. cbn [commit].
    split; apply (field_merge_named _ _ _ _ "purchaseDate" ServerTimestamp);
      assumption.
Qed.

(** C7, as amended.  For every order_created request to part_000, and for
    every request to webhook.js (first document): the response and the
    write are those of the request, whatever the time and the prior state
    of the records; processing it at [now1] and again at [now2] leaves the
    records as processing it once at [now2] does; every field but
    purchaseDate is then as the first processing left it; and purchaseDate,
    where the order is written, is the server's time at the last delivery.
    A verified paid order that is complete is written, so that its
    purchaseDate is [now2] after the second delivery. *)
Theorem redelivered_order (env : environment) (req : request) :
  (Event.event_name (body req) = VStr "order_created" ->
   redelivery_is_absorbed (fun now => Strict.handler env now req))
  /\ redelivery_is_absorbed (fun now => RawBody.handler env now req)
  /\ (forall (email name id : string) (users : collection) (now1 now2 : Z),
        Strict.verified env req ->
        Event.event_name (body req) = VStr "order_created" ->
        Event.status (body req) = VStr "paid" ->
        Event.user_email (body req) = VStr email -> document_id email ->
        Event.product_name (body req) = VStr name ->
        Event.id (body req) = VStr id ->
        let once t := snd (Strict.handler env t req users) in
        let twice := snd (Strict.handler env now2 req (once now1)) in
        field (once now1) email "purchaseDate" = Some (Timestamp now1)
        /\ field twice email "purchaseDate" = Some (Timestamp now2)).
Proof.
  split; [| split].
  - intros Hname. destruct (strict_order_write env req Hname) as (r & e & He & Hs & Hd).
    exact (absorbed _ r e He Hs Hd).
  - destruct (rawbody_order_write env req) as (r & e & He & Hs & Hd).
    exact (absorbed _ r e He Hs Hd).
  - intros email name id users now1 now2 Hv Hname Hstatus Hemail Hdoc Hproduct Hid.
    cbn zeta.
    rewrite !(strict_writes_paid_order env _ req _ email name id
                Hname Hstatus Hemail Hdoc Hproduct Hid Hv).
    cbn [snd]. split; (erewrite order_field_written by in_names; reflexivity).
Qed.

Lemma redelivered_order_witness :
  let req := Sample.resigned Sample.order_event in
  let once t := snd (Strict.handler Sample.env t req Sample.users0) in
  let twice := snd (Strict.handler Sample.env 1700000600 req (once 1700000000)) in
  Strict.verified Sample.env req
  /\ Event.event_name (body req) = VStr "order_created"
  /\ document_id "ada@example.com"
  /\ redelivery_is_absorbed (fun now => Strict.handler Sample.env now req)
  /\ field (once 1700000000) "ada@example.com" "purchaseDate" = Some (Timestamp 1700000000)
  /\ field twice "ada@example.com" "purchaseDate" = Some (Timestamp 1700000600).
Proof.
  intros req once twice.
  assert (Hv : Strict.verified Sample.env req) by (unfold Strict.verified; evaluate_all).
  assert (Hname : Event.event_name (body req) = VStr "order_created") by reflexivity.
  destruct (redelivered_order Sample.env req) as (Habsorbed & _ & Hdate).
  split; [exact Hv |]. split; [exact Hname |]. split; [exact ada_is_a_document_id |].
  split; [exact (Habsorbed Hname) |].
  exact (Hdate "ada@example.com" "Pro Yearly Plan" "1001" Sample.users0
           1700000000 1700000600 Hv Hname eq_refl eq_refl ada_is_a_document_id
           eq_refl eq_refl).
Defined.

(** C7, as stated, fails in part_000: purchaseDate is the server's time at
    the write, so a second delivery, ten minutes after the first, leaves
    another record than the first did. *)
Lemma redelivery_moves_purchase_date :
  let delivery := Sample.resigned Sample.order_event in
  let once := snd (Strict.handler Sample.env 1700000000 delivery ∅) in
  let twice := snd (Strict.handler Sample.env 1700000600 delivery once) in
  field once "ada@example.com" "purchaseDate" = Some (Timestamp 1700000000)
  /\ field twice "ada@example.com" "purchaseDate" = Some (Timestamp 1700000600)
  /\ twice <> once.
Proof.
  intros delivery once twice.
  assert (Hv : Strict.verified Sample.env delivery)
    by (unfold Strict.verified; evaluate_all).
  assert (Ho : field once "ada@example.com" "purchaseDate" = Some (Timestamp 1700000000)).
  { unfold once. destruct Hv as (Hm & Hsig & Hsec & Hver).
    unfold Strict.handler, try_catch, bind, lift, ret.
    rewrite (post_eqb _ Hm), Hsig, Hsec, Hver. vm_compute. reflexivity. }
  assert (Ht : field twice "ada@example.com" "purchaseDate" = Some (Timestamp 1700000600)).
  { unfold twice. destruct Hv as (Hm & Hsig & Hsec & Hver).
    unfold Strict.handler at 1. unfold try_catch, bind, lift, ret.
    rewrite (post_eqb _ Hm), Hsig, Hsec, Hver. cbn [negb orb].
    lazy -[merge field once].
    apply (field_merge_named _ _ _ _ "purchaseDate" ServerTimestamp);
      [distinct_names | in_names]. }
  split; [exact Ho |]. split; [exact Ht |].
  intros Heq. rewrite Heq, Ho in Ht. discriminate Ht.
Qed.

(** * Further properties of the three versions *)

(** ** What every request comes to *)

Ltac stamp_cases Hk :=
  repeat (apply elem_of_cons in Hk as [Hk | Hk];
          [first [discriminate Hk | injection Hk as ->; in_names] |]);
  now apply elem_of_nil in Hk.

Ltac status_cases := first [reflexivity | cbn [status respond]; in_names].

(** A run that is evaluated down to its result is summed up by its
    response and by the write it made, if it made one. *)
Ltac summarise :=
  first
    [ eexists _, Nothing; split; [intros ? ?; reflexivity |];
      split; [exact I | split; [exact I | split; [left; reflexivity | status_cases]]]
    | eexists _, (Merged _ _); split; [intros ? ?; reflexivity |];
      split; [| split; [| split; [right; reflexivity | status_cases]]];
      [ cbn [writes_within map fst];
        split; [erewrite get_get_opt by eassumption; apply doc_Return; eassumption |];
        let k := fresh "k" in
        let Hk := fresh "Hk" in
        intros k Hk; member_cases Hk
      | cbn [stamps_within];
        let k := fresh "k" in
        let Hk := fresh "Hk" in
        intros k Hk; stamp_cases Hk ] ].

Lemma strict_summary (env : environment) (req : request) :
  exists r e,
    comes_to (fun now => Strict.handler env now req) r e
    /\ shaped (method req) (Event.user_email (body req)) r e.
Proof.
  unfold comes_to, shaped, Strict.handler.
  destruct (method req =? "POST")%string; cbn [negb]; [| summarise].
  unfold try_catch, bind, lift, ret, set_merge.
  open_event req; cases; summarise.
Qed.

Lemma lenient_summary (env : environment) (req : request) :
  exists r e,
    comes_to (fun now => Lenient.handler env now req) r e
    /\ shaped (method req) (Event.user_email (body req)) r e.
Proof.
  unfold comes_to, shaped, Lenient.handler.
  destruct (method req =? "POST")%string; cbn [negb]; [| summarise].
  unfold try_catch, bind, lift, ret, set_merge.
  open_event req; cases; summarise.
Qed.

Lemma rawbody_summary (env : environment) (req : request) :
  exists r e,
    comes_to (fun now => RawBody.handler env now req) r e
    /\ shaped (method req) (Event.user_email (parsed_event req)) r e.
Proof.
  unfold comes_to, shaped, RawBody.handler, parsed_event.
  destruct (method req =? "POST")%string; cbn [negb]; [| summarise].
  unfold try_catch, bind, lift, ret, set_merge.
  destruct (JSON.parse _) as [event | err].
  - unfold Event.user_email, Event.attributes.
    destruct event; cbn [get get_opt]; cases; summarise.
  - cases; summarise.
Qed.

Lemma field_merge_keeps now id (data : list (string * field_value)) (users : collection)
    id' name :
  is_Some (field users id' name) -> is_Some (field (merge now id data users) id' name).
Proof.
  unfold field. destruct (decide (id = id')) as [<- | Hne].
  - rewrite merge_lookup, lookup_union.
    destruct (users !! id) as [record |]; simpl; [| now intros [x Hx]].
    intros [x ->]. destruct (fields_at now data !! name); simpl; eauto.
  - now rewrite merge_lookup_other.
Qed.

Lemma commit_keeps (e : effect) (now : Z) (users : collection) (id name : string) :
  is_Some (field users id name) -> is_Some (field (commit e now users) id name).
Proof. destruct e; simpl; [easy | apply field_merge_keeps]. Qed.

Lemma commit_unstamped (names : list string) (e : effect) (now now' : Z)
    (users : collection) (id name : string) :
  stamps_within names e -> name ∉ names ->
  field (commit e now users) id name = field (commit e now' users) id name.
Proof.
  destruct e as [|id' data]; simpl; [reflexivity |].
  intros Hstamps Hname. apply field_merge_plain.
  intros k Hk ->. now apply Hname, Hstamps.
Qed.

(** What follows from the summary of a version, whichever it is. *)
Section AnyVersion.

Variable h : environment -> Z -> request -> M response.
Variable recipient : request -> value.
Hypothesis summary :
  forall env req, exists r e,
    comes_to (fun now => h env now req) r e /\ shaped (method req) (recipient req) r e.

Lemma summary_answers : answers h.
Proof.
  intros env now req users.
  destruct (summary env req) as (r & e & Hrun & _ & _ & _ & Hstatus).
  exists r, (commit e now users). split; [apply Hrun |].
  destruct (String.eqb_spec (method req) "POST") as [Hm | Hm].
  - split.
    + apply elem_of_cons in Hstatus as [-> | Hstatus]; [in_names |].
      apply elem_of_cons in Hstatus as [-> | Hstatus]; [in_names |].
      apply elem_of_cons in Hstatus as [-> | Hstatus]; [in_names |].
      now apply elem_of_nil in Hstatus.
    + split; [| congruence]. intros H405. rewrite H405 in Hstatus.
      apply elem_of_cons in Hstatus as [Hs | Hstatus]; [discriminate Hs |].
      apply elem_of_cons in Hstatus as [Hs | Hstatus]; [discriminate Hs |].
      apply elem_of_cons in Hstatus as [Hs | Hstatus]; [discriminate Hs |].
      now apply elem_of_nil in Hstatus.
  - rewrite Hstatus. split; [in_names | tauto].
Qed.


Lemma summary_blind : answers_blindly h.
Proof.
  intros env req now now' users users'.
  destruct (summary env req) as (r & e & Hrun & _). now rewrite !Hrun.
Qed.

Lemma summary_framed : framed h recipient.
Proof.
  intros env now req users.
  destruct (summary env req) as (r & e & Hrun & Hwrites & _).
  cbn zeta. rewrite Hrun. cbn [snd].
  destruct (commit_frame _ _ _ now users Hwrites) as [Hfields Hrecords].
  split; [exact Hfields |]. split; [intros _; exact Hrecords |]. apply commit_keeps.
Qed.

Lemma summary_absorbs : absorbs_redelivery h.
Proof.
  intros env req users now1 now2.
  destruct (summary env req) as (r & e & Hrun & _ & Hstamps & _).
  cbn zeta. rewrite !Hrun. cbn [snd]. rewrite commit_again.
  split; [reflexivity |]. intros id name Hname. now apply commit_unstamped with stamp_names.
Qed.

End AnyVersion.

(** X1.  No exception leaves any version of the handler: whatever the
    request, the environment, the time and the records, the handler returns
    a response, its status is 200, 401, 405 or 500, and it is 405 exactly
    when the request is not a POST. *)
Theorem every_request_is_answered :
  answers Strict.handler /\ answers Lenient.handler /\ answers RawBody.handler.
Proof.
  split; [| split].
  - exact (summary_answers _ _ strict_summary).
  - exact (summary_answers _ _ lenient_summary).
  - exact (summary_answers _ _ rawbody_summary).
Qed.



(** X3.  No version reads the records or the clock to decide its answer:
    the response to a request is the same at every time and on every state
    of the users collection. *)
Theorem answer_ignores_the_records :
  answers_blindly Strict.handler /\ answers_blindly Lenient.handler
  /\ answers_blindly RawBody.handler.
Proof.
  split; [| split].
  - exact (summary_blind _ _ strict_summary).
  - exact (summary_blind _ _ lenient_summary).
  - exact (summary_blind _ _ rawbody_summary).
Qed.

(** X4.  Whatever the request, what a version leaves behind differs from
    the prior records at most in the ten fields that the handlers name, and
    no field of any record is removed; when the event's user_email, if it is
    a string, is an id that the store takes for a document, every record
    but that of user_email is untouched. *)
Theorem every_write_is_framed :
  framed Strict.handler (fun req => Event.user_email (body req))
  /\ framed Lenient.handler (fun req => Event.user_email (body req))
  /\ framed RawBody.handler (fun req => Event.user_email (parsed_event req)).
Proof.
  split; [| split].
  - exact (summary_framed _ _ strict_summary).
  - exact (summary_framed _ _ lenient_summary).
  - exact (summary_framed _ _ rawbody_summary).
Qed.

(** X5.  Redelivery of any request, of whatever event, to part_000 or to
    the second document of webhook.js: processing it at [now1] and again at
    [now2] leaves the records as processing it once at [now2] does, and
    every field but purchaseDate, subscriptionStartDate and lastUpdated is
    as the first processing left it. *)
Theorem redelivery_of_any_event :
  absorbs_redelivery Strict.handler /\ absorbs_redelivery Lenient.handler.
Proof.
  split.
  - exact (summary_absorbs _ _ strict_summary).
  - exact (summary_absorbs _ _ lenient_summary).
Qed.

(** ** The dispatch of part_000 and of the second document of webhook.js *)


Lemma strict_dispatch (env : environment) (now : Z) (req : request) :
  Strict.verified env req ->
  Strict.handler env now req
  = try_catch (dispatch now (body req)) (fun error => ret internal_error).
Proof.
  intros (Hm & Hsig & Hsec & Hver). unfold Strict.handler.
  rewrite (post_eqb _ Hm), Hsig, Hsec. cbn [negb orb].
  unfold try_catch, bind at 1, lift at 1. now rewrite Hver.
Qed.

Lemma lenient_dispatch (env : environment) (now : Z) (req : request) :
  Lenient.passes env req ->
  Lenient.handler env now req
  = try_catch (dispatch now (body req))
      (fun error =>
         ret (respond 500 [("error", VStr "Internal server error");
                           ("details", VStr (message error))])).
Proof.
  intros (Hm & Hsec & Hver). unfold Lenient.handler.
  rewrite (post_eqb _ Hm), Hsec. cbn [negb].
  destruct (truthy_string (x_signature req)); [now rewrite (Hver eq_refl) | reflexivity].
Qed.

(** A request that part_000 answers 200 was verified, and one that the
    second document of webhook.js answers 200 passed its checks. *)
Lemma strict_accepts_verified (env : environment) (now : Z) (req : request)
    (users users' : collection) (r : response) :
  Strict.handler env now req users = (Return r, users') -> status r = 200 ->
  Strict.verified env req.
Proof.
  unfold Strict.handler, Strict.verified.
  destruct (String.eqb_spec (method req) "POST") as [Hm | Hm]; cbn [negb];
    [| now intros [= <- _] Hr].
  unfold try_catch.
  destruct (truthy_string (x_signature req)); [| now intros [= <- _] Hr].
  destruct (truthy_string (LEMON_SQUEEZY_WEBHOOK_SECRET env)); [| now intros [= <- _] Hr].
  cbn [negb orb]. unfold bind at 1, lift at 1.
  destruct (Strict.verifySignature _ _ _) as [[|] | e]; try now intros [= <- _] Hr.
  now intros _ _.
Qed.

Lemma lenient_accepts_passes (env : environment) (now : Z) (req : request)
    (users users' : collection) (r : response) :
  Lenient.handler env now req users = (Return r, users') -> status r = 200 ->
  Lenient.passes env req.
Proof.
  unfold Lenient.handler, Lenient.passes.
  destruct (String.eqb_spec (method req) "POST") as [Hm | Hm]; cbn [negb];
    [| now intros [= <- _] Hr].
  unfold try_catch.
  destruct (truthy_string (LEMON_SQUEEZY_WEBHOOK_SECRET env)); [| now intros [= <- _] Hr].
  cbn [negb].
  destruct (truthy_string (x_signature req)); cbn [andb]; [| now intros _ _].
  destruct (Lenient.verifySignature _ _ _); [now intros _ _ | now intros [= <- _] Hr].
Qed.

(** The two versions verify the same requests. *)
Lemma verified_either_way (env : environment) (req : request) :
  Strict.verified env req <-> Lenient.verified env req.
Proof.
  unfold Strict.verified, Lenient.verified, Lenient.passes. split.
  - intros (Hm & Hsig & Hsec & Hver). repeat split; try assumption. intros _.
    apply truthy_string_Some in Hsec as (key & Hkey & Hne).
    destruct (x_signature req) as [given |]; [| discriminate Hsig].
    destruct (JSON.stringify (body req)) as [text |];
      [| rewrite Hkey in Hver; discriminate Hver].
    rewrite Hkey in *. rewrite lenient_verify_cases by exact Hne.
    rewrite strict_verify_cases in Hver.
    destruct (String.length given =? 64)%nat; [congruence | discriminate Hver].
  - intros ((Hm & Hsec & Hver) & Hsig). repeat split; try assumption.
    specialize (Hver Hsig).
    apply truthy_string_Some in Hsec as (key & Hkey & Hne).
    destruct (x_signature req) as [given |]; [| discriminate Hsig].
    rewrite Hkey in *.
    destruct (JSON.stringify (body req)) as [text |].
    + rewrite lenient_verify_cases in Hver by exact Hne.
      apply bool_decide_eq_true_1 in Hver as ->.
      rewrite strict_verify_cases, length_hmac_hex, Nat.eqb_refl.
      now rewrite bool_decide_eq_true_2.
    + unfold Lenient.verifySignature in Hver.
      rewrite Hsig, (truthy_string_nonempty _ Hne) in Hver. discriminate Hver.
Qed.

Lemma undefined_field_refused (data : list (string * field_value)) (k : string) :
  (k, Plain VUndefined) ∈ data -> forallb (fun kf => defined (snd kf)) data = false.
Proof.
  induction data as [|[k' f] data IH]; intros Hin; [now apply elem_of_nil in Hin |].
  apply elem_of_cons in Hin as [[= <- <-] | Hin]; [reflexivity |].
  simpl. rewrite (IH Hin). apply andb_false_r.
Qed.

Lemma doc_refuses (v : value) :
  (forall email, v = VStr email -> email = "") -> exists e, doc v = Throw e.
Proof.
  intros H. destruct v as [| | | |s| |]; simpl; eauto.
  destruct (String.eqb_spec s "") as [Hs | Hs]; eauto. now destruct (Hs (H s eq_refl)).
Qed.

(** One case analysis on the innermost thing that the run branches on. *)
Ltac innermost x :=
  lazymatch x with
  | context [match ?y with _ => _ end] => innermost y
  | _ => destruct x eqn:?
  end.

Ltac run :=
  repeat first
    [ progress cbn [negb andb orb fst snd]
    | match goal with |- context [match ?x with _ => _ end] => innermost x end ].

Ltac refute_write k :=
  match goal with
  | H : forallb _ _ = true |- _ =>
      rewrite (undefined_field_refused _ k) in H by in_names; discriminate H
  end.

Ltac open_attrs :=
  match goal with
  | |- context [get_opt (own ?f "data") "attributes"] =>
      destruct (get_opt (own f "data") "attributes")
  end;
  cbn [get get_opt] in *.

(** The dispatch on an incomplete event, once the lines before it are
    passed: every way through it ends in the catch. *)
Ltac refuse_incomplete Hevent req finish :=
  let Hname := fresh "Hname" in
  let Hstatus := fresh "Hstatus" in
  let Hwhy := fresh "Hwhy" in
  let e := fresh "e" in
  let name := fresh "name" in
  destruct Hevent as [(Hname & Hstatus & Hwhy) | [(Hname & Hwhy) | (Hname & Hwhy)]];
  open_event req; rewrite Hname; literal; unfold set_merge;
  [ open_attrs; try discriminate Hstatus; rewrite Hstatus; literal;
    destruct Hwhy as [Hwhy | [Hwhy | Hwhy]];
    [ destruct (doc_refuses _ Hwhy) as [e ->]; run; finish
    | rewrite Hwhy; run; first [finish | refute_write "lemonSqueezyOrderId"]
    | unfold Event.product_name, Event.attributes in Hwhy; cbn [get_opt] in Hwhy;
      destruct (or_else _ _) as [| | | |name| |];
      first [now destruct (Hwhy name) | cbn [call_toLowerCase]; run; finish] ]
  | destruct Hwhy as [Hwhy | Hwhy];
    [ open_attrs;
      first [finish | destruct (doc_refuses _ Hwhy) as [e ->]; finish]
    | rewrite Hwhy; run; first [finish | refute_write "lemonSqueezySubscriptionId"] ]
  | destruct Hwhy as [Hwhy | Hwhy];
    [ open_attrs;
      first [finish | destruct (doc_refuses _ Hwhy) as [e ->]; finish]
    | open_attrs;
      first [finish
            | rewrite Hwhy; run; first [finish | refute_write "subscriptionStatus"]] ] ].

(** X6.  For every subscription_created event that passes verification
    (its user_email a string that the store takes as a document id, its id a
    string), part_000 and the second document of webhook.js answer 200 and
    make one merging write into the record of user_email: email,
    subscription premium, subscriptionType yearly, subscriptionStartDate
    (the server's time) and lemonSqueezySubscriptionId (the id of the
    event). *)
Theorem new_subscription_is_projected
    (env : environment) (now : Z) (req : request) (users : collection)
    (email id : string) :
  Event.event_name (body req) = VStr "subscription_created" ->
  Event.user_email (body req) = VStr email -> document_id email ->
  Event.id (body req) = VStr id ->
  let data :=
    [("email", Plain (VStr email));
     ("subscription", Plain (VStr "premium"));
     ("subscriptionType", Plain (VStr "yearly"));
     ("subscriptionStartDate", ServerTimestamp);
     ("lemonSqueezySubscriptionId", Plain (VStr id))] in
  let written := (Return received, merge now email data users) in
  (Strict.verified env req -> Strict.handler env now req users = written)
  /\ (Lenient.passes env req -> Lenient.handler env now req users = written)
  /\ field (snd written) email "subscription" = Some (Stored (VStr "premium"))
  /\ field (snd written) email "subscriptionType" = Some (Stored (VStr "yearly"))
  /\ field (snd written) email "subscriptionStartDate" = Some (Timestamp now)
  /\ field (snd written) email "lemonSqueezySubscriptionId" = Some (Stored (VStr id)).
Proof.
  intros Hname Hemail [Hne _] Hid data written.
  apply String.eqb_neq in Hne.
  unfold Event.id in Hid.
  split; [| split; [| split; [| split; [| split]]]].
  - intros H. strict_prelude H. open_event req. rewrite Hname. literal.
    open_attributes fields. rewrite Hemail, Hid.
    unfold set_merge, doc. rewrite Hne. reflexivity.
  - intros H. lenient_prelude H; open_event req; rewrite Hname; literal;
    open_attributes fields; rewrite Hemail, Hid;
    unfold set_merge, doc; rewrite Hne; reflexivity.
  - cbn [snd]. apply (field_merge_named now email _ users "subscription" (Plain _));
    [distinct_names | in_names].
  - cbn [snd]. apply (field_merge_named now email _ users "subscriptionType" (Plain _));
    [distinct_names | in_names].
  - cbn [snd].
    apply (field_merge_named now email _ users "subscriptionStartDate" ServerTimestamp);
    [distinct_names | in_names].
  - cbn [snd].
    apply (field_merge_named now email _ users "lemonSqueezySubscriptionId" (Plain _));
    [distinct_names | in_names].
Qed.

Lemma new_subscription_is_projected_witness :
  let req := Sample.resigned Delivery.created_event in
  Strict.verified Sample.env req
  /\ document_id "ada@example.com"
  /\ Strict.handler Sample.env 1700000600 req Sample.users0
     = (Return received,
        merge 1700000600 "ada@example.com" Delivery.created_data Sample.users0)
  /\ field (snd (Strict.handler Sample.env 1700000600 req Sample.users0))
       "ada@example.com" "subscriptionStartDate" = Some (Timestamp 1700000600).
Proof.
  intros req.
  assert (Hv : Strict.verified Sample.env req) by (unfold Strict.verified; evaluate_all).
  destruct (new_subscription_is_projected Sample.env 1700000600 req Sample.users0
              "ada@example.com" "42" eq_refl eq_refl ada_is_a_document_id eq_refl)
    as (Hstrict & _ & _ & _ & Hstamp & _).
  split; [exact Hv |]. split; [exact ada_is_a_document_id |].
  split; [exact (Hstrict Hv) |].
  rewrite (Hstrict Hv). exact Hstamp.
Defined.



(** X8.  For every request that passes verification and whose event is of
    one of the three projected kinds but incomplete (its user_email is not
    a non-empty string; or the id of an order or of a new subscription is
    absent; or the status of an update is absent; or the product name of an
    order is there and is not a string), part_000 and the second document of
    webhook.js answer 500 and write nothing. *)
Theorem incomplete_event_is_refused
    (env : environment) (now : Z) (req : request) (users : collection) :
  incomplete (body req) ->
  (Strict.verified env req ->
   Strict.handler env now req users = (Return internal_error, users))
  /\ (Lenient.passes env req ->
      exists details,
        Lenient.handler env now req users
        = (Return (respond 500 [("error", VStr "Internal server error");
                                ("details", VStr details)]), users)).
Proof.
  unfold incomplete, no_recipient, internal_error.
  intros Hevent. split.
  - intros H. strict_prelude H. refuse_incomplete Hevent req ltac:(reflexivity).
  - intros H. lenient_prelude H; refuse_incomplete Hevent req ltac:(eexists; reflexivity).
Qed.

Lemma incomplete_event_is_refused_witness :
  let req := Sample.resigned Delivery.update_without_status in
  Strict.verified Sample.env req
  /\ Event.status (body req) = VUndefined
  /\ Strict.handler Sample.env 1700000600 req Sample.users0
     = (Return internal_error, Sample.users0).
Proof.
  intros req.
  assert (Hv : Strict.verified Sample.env req) by (unfold Strict.verified; evaluate_all).
  assert (Hevent : incomplete (body req)).
  { right. right. split; [reflexivity |]. right. reflexivity. }
  split; [exact Hv |]. split; [reflexivity |].
  exact (proj1 (incomplete_event_is_refused Sample.env 1700000600 req Sample.users0 Hevent)
           Hv).
Defined.

(** X9.  A POST whose parsed body is null or undefined is refused by
    part_000 and by the second document of webhook.js, with 401 or 500, and
    nothing is written: the read of [event.meta] throws, when the request
    gets that far. *)
Theorem request_without_body
    (env : environment) (now : Z) (req : request) (users : collection) :
  method req = "POST" -> nullish (body req) = true ->
  (exists r, Strict.handler env now req users = (Return r, users) /\ refusal r)
  /\ (exists r, Lenient.handler env now req users = (Return r, users) /\ refusal r).
Proof.
  intros Hm Hbody. unfold refusal. split.
  - unfold Strict.handler. rewrite (post_eqb _ Hm).
    unfold try_catch, bind, lift, ret.
    destruct (body req); try discriminate Hbody; cbn [get];
      run; eexists; (split; [reflexivity | cbn [status respond]; tauto]).
  - unfold Lenient.handler. rewrite (post_eqb _ Hm).
    unfold try_catch, bind, lift, ret.
    destruct (body req); try discriminate Hbody; cbn [get];
      run; eexists; (split; [reflexivity | cbn [status respond]; tauto]).
Qed.

Lemma request_without_body_witness :
  let req := Request "POST" None [] VUndefined in
  nullish (body req) = true
  /\ (exists r, Lenient.handler Sample.env 1700000600 req Sample.users0
                = (Return r, Sample.users0) /\ refusal r).
Proof.
  intros req. split; [reflexivity |].
  exact (proj2 (request_without_body Sample.env 1700000600 req Sample.users0
                  eq_refl eq_refl)).
Defined.

(** ** The two [verifySignature] functions, and the requests they let in *)

(** X10.  [verifySignature] accepts the digest and nothing else, also when
    an argument is undefined: the function of part_000 returns true exactly
    when the signature is the hexadecimal HMAC-SHA256 of the payload under
    the secret; that of webhook.js returns true exactly then and when the
    secret is not empty; and the function of part_000 throws exactly when
    the payload or the secret is undefined, or the signature is undefined
    or is not 64 bytes long. *)
Theorem verifySignature_accepts_the_digest_only (payload signature secret : option string) :
  (Strict.verifySignature payload signature secret = Return true
   <-> exists text key,
         payload = Some text /\ secret = Some key
         /\ signature = Some (hmac_hex key (from text)))
  /\ (Lenient.verifySignature payload signature secret = true
      <-> exists text key,
            payload = Some text /\ secret = Some key /\ key <> ""
            /\ signature = Some (hmac_hex key (from text)))
  /\ ((exists e, Strict.verifySignature payload signature secret = Throw e)
      <-> payload = None \/ secret = None
          \/ forall given, signature = Some given -> String.length given <> 64%nat).
Proof.
  split; [| split].
  - split.
    + destruct payload as [text |], secret as [key |], signature as [given |];
        try (intros H; discriminate H).
      rewrite strict_verify_cases.
      destruct (String.length given =? 64)%nat; [| intros H; discriminate H].
      intros [= H]. apply bool_decide_eq_true_1 in H. exists text, key. now rewrite H.
    + intros (text & key & -> & -> & ->).
      rewrite strict_verify_cases, length_hmac_hex, Nat.eqb_refl.
      now rewrite bool_decide_eq_true_2.
  - split.
    + destruct payload as [text |], secret as [key |], signature as [given |];
        try (unfold Lenient.verifySignature;
             destruct (truthy_string _); try destruct (truthy_string _);
             intros H; discriminate H).
      destruct (String.eqb_spec key "") as [-> | Hkey].
      * unfold Lenient.verifySignature. cbn [truthy_string String.eqb negb].
        rewrite orb_true_r. intros H; discriminate H.
      * rewrite lenient_verify_cases by exact Hkey.
        intros H. apply bool_decide_eq_true_1 in H. exists text, key. now rewrite H.
    + intros (text & key & -> & -> & Hkey & ->).
      rewrite lenient_verify_cases by exact Hkey. now apply bool_decide_eq_true_2.
  - split.
    + intros [e He].
      destruct payload as [text |]; [| now left].
      destruct secret as [key |]; [| now right; left].
      right. right. intros given ->. rewrite strict_verify_cases in He.
      destruct (Nat.eqb_spec (String.length given) 64); [discriminate He | assumption].
    + intros [-> | [-> | Hlen]].
      * destruct secret; eexists; reflexivity.
      * destruct payload; eexists; reflexivity.
      * destruct payload as [text |], secret as [key |];
          try (eexists; reflexivity).
        destruct signature as [given |]; [| eexists; reflexivity].
        rewrite strict_verify_cases.
        destruct (Nat.eqb_spec (String.length given) 64) as [Heq | _];
          [now destruct (Hlen given eq_refl) | eexists; reflexivity].
Qed.

(** X11.  Every request that part_000 accepts, the second document of
    webhook.js accepts, with the same write; and a request with a signature
    that the second document of webhook.js accepts, part_000 accepts, with
    the same write. *)
Theorem strict_acceptance_is_lenient_acceptance
    (env : environment) (now : Z) (req : request) (users users' : collection) :
  (Strict.handler env now req users = (Return received, users') ->
   Lenient.handler env now req users = (Return received, users'))
  /\ (truthy_string (x_signature req) = true ->
      Lenient.handler env now req users = (Return received, users') ->
      Strict.handler env now req users = (Return received, users')).
Proof.
  split.
  - intros H. pose proof (strict_accepts_verified _ _ _ _ _ _ H eq_refl) as Hv.
    rewrite (strict_dispatch _ _ _ Hv) in H.
    apply verified_either_way in Hv as [Hp _].
    rewrite (lenient_dispatch _ _ _ Hp).
    unfold try_catch in *.
    destruct (dispatch now (body req) users) as [[a | e] u]; [exact H | discriminate H].
  - intros Hsig H. pose proof (lenient_accepts_passes _ _ _ _ _ _ H eq_refl) as Hp.
    rewrite (lenient_dispatch _ _ _ Hp) in H.
    assert (Hv : Strict.verified env req) by (apply verified_either_way; now split).
    rewrite (strict_dispatch _ _ _ Hv).
    unfold try_catch in *.
    destruct (dispatch now (body req) users) as [[a | e] u]; [exact H | discriminate H].
Qed.

Lemma strict_acceptance_is_lenient_acceptance_witness :
  let req := Sample.resigned Sample.order_event in
  let written := merge 1700000600 "ada@example.com" Sample.order_data Sample.users0 in
  Strict.handler Sample.env 1700000600 req Sample.users0 = (Return received, written)
  /\ Lenient.handler Sample.env 1700000600 req Sample.users0 = (Return received, written).
Proof.
  intros req written.
  assert (Hv : Strict.verified Sample.env req) by (unfold Strict.verified; evaluate_all).
  assert (Hrun : Strict.handler Sample.env 1700000600 req Sample.users0
                 = (Return received, written)).
  { destruct Hv as (Hm & Hsig & Hsec & Hver).
    unfold Strict.handler, try_catch, bind, lift, ret.
    rewrite (post_eqb _ Hm), Hsig, Hsec, Hver. unfold written.
    lazy -[merge Sample.users0]. reflexivity. }
  split; [exact Hrun |].
  exact (proj1 (strict_acceptance_is_lenient_acceptance Sample.env 1700000600 req
                  Sample.users0 written) Hrun).
Defined.

Lemma bind_lift_Return {A B : Type} (a : A) (k : A -> M B) (users : collection) :
  bind (lift (Return a)) k users = k a users.
Proof. reflexivity. Qed.

(** X12.  In both documents of webhook.js a request without a signature,
    or with an empty one, is processed as the same request with a valid
    signature is, whatever its body: when the secret is set, leaving the
    x-signature header out has the effect of signing. *)
Theorem missing_signature_counts_as_valid
    (env : environment) (now : Z) (m : string) (chunks : list chunk) (parsed : value)
    (users : collection) (key text : string) :
  LEMON_SQUEEZY_WEBHOOK_SECRET env = Some key -> key <> "" ->
  JSON.stringify parsed = Some text ->
  let raw := RawBody.getRawBody chunks in
  let signed_text := Some (hmac_hex key (from text)) in
  let signed_stream := Some (hmac_hex key raw) in
  (Lenient.handler env now (Request m None chunks parsed) users
   = Lenient.handler env now (Request m signed_text chunks parsed) users
   /\ Lenient.handler env now (Request m (Some "") chunks parsed) users
      = Lenient.handler env now (Request m signed_text chunks parsed) users)
  /\ (RawBody.handler env now (Request m None chunks parsed) users
      = RawBody.handler env now (Request m signed_stream chunks parsed) users
      /\ RawBody.handler env now (Request m (Some "") chunks parsed) users
         = RawBody.handler env now (Request m signed_stream chunks parsed) users).
Proof.
  intros Hsec Hkey Htext raw signed_text signed_stream.
  subst raw signed_text signed_stream. split.
  - enough (H : forall given, truthy_string given = false ->
                Lenient.handler env now (Request m given chunks parsed) users
                = Lenient.handler env now
                    (Request m (Some (hmac_hex key (from text))) chunks parsed) users)
      by (split; apply H; reflexivity).
    intros given Hgiven. unfold Lenient.handler. cbn [method x_signature body].
    destruct (negb (m =? "POST")%string); [reflexivity |].
    rewrite Hsec, (truthy_string_nonempty _ Hkey), Htext, Hgiven.
    rewrite lenient_verify_cases by exact Hkey.
    rewrite bool_decide_eq_true_2 by reflexivity.
    rewrite (truthy_string_nonempty _ (hmac_hex_nonempty key (from text))). reflexivity.
  - enough (H : forall given, truthy_string given = false ->
                RawBody.handler env now (Request m given chunks parsed) users
                = RawBody.handler env now
                    (Request m (Some (hmac_hex key (RawBody.getRawBody chunks)))
                       chunks parsed) users)
      by (split; apply H; reflexivity).
    intros given Hgiven. unfold RawBody.handler. cbn [method x_signature stream].
    destruct (negb (m =? "POST")%string); [reflexivity |].
    rewrite Hsec, (truthy_string_nonempty _ Hkey), Hgiven.
    rewrite (truthy_string_nonempty _ (hmac_hex_nonempty key (RawBody.getRawBody chunks))).
    cbn [andb default].
    unfold try_catch, hmac_digest. rewrite bind_lift_Return. cbn [id].
    rewrite timingSafeEqual_same, bind_lift_Return. reflexivity.
Qed.

Lemma missing_signature_counts_as_valid_witness :
  let text := default "" (JSON.stringify Sample.order_event) in
  Sample.secret <> ""
  /\ Lenient.handler Sample.env 1700000600
       (Request "POST" None [Binary (from text)] Sample.order_event) Sample.users0
     = Lenient.handler Sample.env 1700000600 (Sample.resigned Sample.order_event)
         Sample.users0.
Proof.
  intros text.
  assert (Hkey : Sample.secret <> "") by discriminate.
  assert (Htext : JSON.stringify Sample.order_event = Some text) by reflexivity.
  split; [exact Hkey |].
  exact (proj1 (proj1 (missing_signature_counts_as_valid Sample.env 1700000600 "POST"
                         [Binary (from text)] Sample.order_event Sample.users0
                         Sample.secret text eq_refl Hkey Htext))).
Defined.

(** ** The first document of webhook.js *)

(** Its lines up to step 4, for a request that reaches it. *)
Ltac rawbody_prelude H :=
  let Hm := fresh "Hm" in
  let Hver := fresh "Hver" in
  let Hparse := fresh "Hparse" in
  let secret := fresh "secret" in
  let signature := fresh "signature" in
  destruct H as (Hm & Hver & Hparse);
  unfold RawBody.handler, try_catch, bind, lift, ret, hmac_digest;
  rewrite (post_eqb _ Hm), Hparse;
  destruct (LEMON_SQUEEZY_WEBHOOK_SECRET _) as [secret |];
  [ destruct (x_signature _) as [signature |];
    [ destruct (truthy_string (Some secret));
      [ destruct (truthy_string (Some signature));
        [ cbn [andb default] in *;
          rewrite from_hex_hmac_hex, (Hver eq_refl eq_refl), timingSafeEqual_same
        | ]
      | ]
    | rewrite andb_false_r ]
  | ];
  cbn [negb andb truthy_string].

(** X13.  For every request that reaches the parse of the first document
    of webhook.js, and whose body parses to a paid order_created event (its
    user_email a string that the store takes as a document id, its product
    name a string or absent, its id a string), the answer is 200 and one
    merging write is made into the record of user_email, with the six
    fields of an order; subscriptionType is yearly when the lower-cased
    product name includes yearly, and lifetime otherwise. *)
Theorem first_document_projects_paid_order
    (env : environment) (now : Z) (req : request) (users : collection)
    (event : value) (email name id : string) :
  reaches_parse env req event ->
  Event.event_name event = VStr "order_created" ->
  Event.status event = VStr "paid" ->
  Event.user_email event = VStr email -> document_id email ->
  Event.product_name event = VStr name ->
  Event.id event = VStr id ->
  RawBody.handler env now req users
  = (Return received,
     merge now email
       [("email", Plain (VStr email));
        ("subscription", Plain (VStr "premium"));
        ("subscriptionType",
         Plain (VStr (if includes (toLowerCase name) "yearly" then "yearly" else "lifetime")));
        ("purchaseDate", ServerTimestamp);
        ("lemonSqueezyOrderId", Plain (VStr id));
        ("productName", Plain (VStr name))] users).
Proof.
  intros H Hname Hstatus Hemail [Hne _] Hproduct Hid.
  apply String.eqb_neq in Hne.
  unfold Event.event_name, Event.user_email, Event.status, Event.product_name,
    Event.id, Event.attributes in *.
  destruct event as [| | | | | |fields]; try discriminate Hname.
  cbn [get get_opt] in *.
  rawbody_prelude H;
    (cbn [get get_opt]; rewrite Hname; literal;
     destruct (get_opt (own fields "data") "attributes") as [| | | | | |attrs];
     try discriminate Hstatus; cbn [get get_opt] in *; rewrite Hstatus; literal;
     rewrite Hproduct, Hemail, Hid;
     unfold set_merge, doc, call_toLowerCase; rewrite Hne; reflexivity).
Qed.

Lemma first_document_projects_paid_order_witness :
  reaches_parse Sample.env Sample.signed_order Sample.order_event
  /\ document_id "ada@example.com"
  /\ RawBody.handler Sample.env 1700000600 Sample.signed_order Sample.users0
     = (Return received,
        merge 1700000600 "ada@example.com" Sample.order_data Sample.users0).
Proof.
  assert (Hv : reaches_parse Sample.env Sample.signed_order Sample.order_event).
  { unfold reaches_parse. split; [reflexivity |]. split; [intros _ _ |]; evaluate. }
  split; [exact Hv |]. split; [exact ada_is_a_document_id |].
  exact (first_document_projects_paid_order Sample.env 1700000600 Sample.signed_order
           Sample.users0 Sample.order_event "ada@example.com" "Pro Yearly Plan" "1001"
           Hv eq_refl eq_refl eq_refl ada_is_a_document_id eq_refl eq_refl).
Defined.



Lemma hex_value_lower (c : ascii) : hex_value (lower c) = hex_value c.
Proof. destruct c as [[] [] [] [] [] [] [] []]; reflexivity. Qed.

(** A property of strings that goes through two characters at a time. *)
Lemma two_steps (P : string -> Prop) :
  P "" -> (forall c, P (String c "")) ->
  (forall c d s, P s -> P (String d s) -> P (String c (String d s))) ->
  forall s, P s.
Proof.
  intros H0 H1 H2 s.
  enough (H : P s /\ forall c, P (String c s)) by apply H.
  induction s as [|d s [IH IH']]; [split; [exact H0 | exact H1] |].
  split; [apply IH' |]. intros c. apply H2; [exact IH | apply IH'].
Qed.

(** [Buffer.from(s, 'hex')] reads capital digits as it reads small ones. *)
Lemma from_hex_toLowerCase (s : string) : from_hex (toLowerCase s) = from_hex s.
Proof.
  induction s as [| c | c d s IH _] using two_steps; [reflexivity | reflexivity |].
  cbn [toLowerCase from_hex]. now rewrite !hex_value_lower, IH.
Qed.

(** It stops at what follows the digits. *)
Lemma from_hex_to_hex_app (l : bytes) (junk : string) :
  Forall is_byte l -> from_hex (to_hex l +:+ junk) = (l ++ from_hex junk)%list.
Proof.
  induction 1 as [|b l Hb _ IH]; [reflexivity |].
  unfold is_byte in Hb. simpl.
  rewrite !hex_value_digit.
  - rewrite IH. simpl. f_equal. pose proof (Z.div_mod b 16). lia.
  - apply Z.mod_pos_bound. lia.
  - split; [apply Z.div_pos; lia | apply Z.div_lt_upper_bound; lia].
Qed.

Lemma length_toLowerCase (s : string) : String.length (toLowerCase s) = String.length s.
Proof. induction s; simpl; congruence. Qed.

(** X15.  The first document of webhook.js compares the signature after
    decoding it from hexadecimal: a signature that is the digest up to the
    case of its letters, followed by anything that does not begin with two
    hexadecimal digits, is treated exactly as the digest itself. *)
Theorem first_document_decodes_the_signature
    (env : environment) (now : Z) (m : string) (chunks : list chunk) (parsed : value)
    (users : collection) (key given junk : string) :
  LEMON_SQUEEZY_WEBHOOK_SECRET env = Some key ->
  toLowerCase given = hmac_hex key (RawBody.getRawBody chunks) ->
  from_hex junk = [] ->
  RawBody.handler env now (Request m (Some (given +:+ junk)) chunks parsed) users
  = RawBody.handler env now
      (Request m (Some (hmac_hex key (RawBody.getRawBody chunks))) chunks parsed) users.
Proof.
  intros Hsec Hgiven Hjunk.
  assert (Hdecoded : from_hex (given +:+ junk)
                     = from_hex (hmac_hex key (RawBody.getRawBody chunks))).
  { rewrite <- from_hex_toLowerCase, toLowerCase_app, Hgiven.
    unfold hmac_hex at 1. rewrite from_hex_to_hex_app by apply sha256_is_bytes.
    rewrite from_hex_toLowerCase, Hjunk, app_nil_r.
    symmetry. apply from_hex_hmac_hex. }
  assert (Hne : given +:+ junk <> "").
  { intros Heq. apply (f_equal String.length) in Heq.
    rewrite length_append in Heq.
    pose proof (f_equal String.length Hgiven) as Hl.
    rewrite length_hmac_hex, length_toLowerCase in Hl.
    simpl in Heq. lia. }
  unfold RawBody.handler. cbn [method x_signature stream].
  destruct (negb (m =? "POST")%string); [reflexivity |].
  rewrite Hsec, (truthy_string_nonempty _ Hne).
  rewrite (truthy_string_nonempty _ (hmac_hex_nonempty key (RawBody.getRawBody chunks))).
  cbn [default id]. now rewrite Hdecoded.
Qed.

Lemma first_document_decodes_the_signature_witness :
  let chunks := [Binary (from Sample.order_text)] in
  toLowerCase Delivery.capital_digest = hmac_hex Sample.secret (RawBody.getRawBody chunks)
  /\ RawBody.handler Sample.env 1700000600
       (Request "POST" (Some (Delivery.capital_digest +:+ "-v1")) chunks Sample.order_event)
       Sample.users0
     = RawBody.handler Sample.env 1700000600 Sample.signed_order Sample.users0.
Proof.
  intros chunks.
  assert (Hgiven : toLowerCase Delivery.capital_digest
                   = hmac_hex Sample.secret (RawBody.getRawBody chunks)) by evaluate.
  split; [exact Hgiven |].
  exact (first_document_decodes_the_signature Sample.env 1700000600 "POST" chunks
           Sample.order_event Sample.users0 Sample.secret Delivery.capital_digest "-v1"
           eq_refl Hgiven eq_refl).
Defined.



(** X17.  A POST whose body does not parse as JSON, the empty body among
    them, or parses to null, is refused by the first document of webhook.js
    with 401 or 500, and nothing is written. *)
Theorem unparseable_body_is_refused
    (env : environment) (now : Z) (req : request) (users : collection) :
  method req = "POST" -> nullish (parsed_event req) = true ->
  exists r, RawBody.handler env now req users = (Return r, users) /\ refusal r.
Proof.
  intros Hm. unfold parsed_event, RawBody.handler, refusal.
  rewrite (post_eqb _ Hm). unfold try_catch, bind, lift, ret.
  destruct (JSON.parse _) as [event | e].
  - intros Hnull. destruct event; try discriminate Hnull; cbn [get];
      run; eexists; (split; [reflexivity | cbn [status respond]; tauto]).
  - intros _. run; eexists; (split; [reflexivity | cbn [status respond]; tauto]).
Qed.

Lemma unparseable_body_is_refused_witness :
  let req := Delivery.streamed None [] in
  RawBody.getRawBody (stream req) = []
  /\ (exists e, JSON.parse (toString (RawBody.getRawBody (stream req))) = Throw e)
  /\ (exists r, RawBody.handler Sample.env 1700000600 req Sample.users0
                = (Return r, Sample.users0) /\ refusal r).
Proof.
  intros req. split; [reflexivity |]. split; [eexists; reflexivity |].
  exact (unparseable_body_is_refused Sample.env 1700000600 req Sample.users0
           eq_refl eq_refl).
Defined.

(** ** The private key *)

Section PrivateKey.

Import Init.

Lemma unescape_other (c : ascii) (s : string) :
  c <> "\"%char -> unescape_newlines (String c s) = String c (unescape_newlines s).
Proof.
  intros Hc. destruct c as [[] [] [] [] [] [] [] []]; try reflexivity. now destruct Hc.
Qed.

Lemma unescape_backslash (d : ascii) (s : string) :
  unescape_newlines (String "\" (String d s))
  = if Ascii.eqb d "n" then String "010" (unescape_newlines s)
    else String "\" (unescape_newlines (String d s)).
Proof. destruct d as [[] [] [] [] [] [] [] []]; reflexivity. Qed.

Lemma prefix_pair (c : ascii) (s : string) :
  String.prefix "\n" (String c s) = Ascii.eqb c "\" && String.prefix "n" s.
Proof.
  cbn [String.prefix]. destruct (ascii_dec "\" c) as [<- | Hne].
  - reflexivity.
  - symmetry. apply andb_false_iff. left. apply Ascii.eqb_neq. congruence.
Qed.

Lemma unescape_head (d : ascii) (s : string) :
  String.prefix "n" (unescape_newlines (String d s)) = Ascii.eqb d "n".
Proof.
  destruct (Ascii.eqb_spec d "\") as [-> | Hd].
  - destruct s as [|e s]; [reflexivity |].
    rewrite unescape_backslash. now destruct (Ascii.eqb e "n").
  - rewrite unescape_other by exact Hd. cbn [String.prefix].
    destruct (ascii_dec "n" d) as [<- | Hne]; [now destruct (unescape_newlines s) |].
    symmetry. apply Ascii.eqb_neq. congruence.
Qed.

Lemma unescaped_has_no_pair (key : string) :
  includes (unescape_newlines key) "\n" = false.
Proof.
  induction key as [| c | c d s IH IH'] using two_steps.
  - reflexivity.
  - destruct c as [[] [] [] [] [] [] [] []]; reflexivity.
  - destruct (Ascii.eqb_spec c "\") as [-> | Hc].
    + rewrite unescape_backslash. destruct (Ascii.eqb d "n") eqn:Hd.
      * cbn [includes]. rewrite prefix_pair. cbn [Ascii.eqb Bool.eqb andb]. exact IH.
      * cbn [includes]. rewrite prefix_pair, unescape_head, Hd, andb_false_r. exact IH'.
    + rewrite unescape_other by exact Hc. cbn [includes]. rewrite prefix_pair.
      apply Ascii.eqb_neq in Hc as ->. exact IH'.
Qed.

Lemma unescape_without_pair (key : string) :
  includes key "\n" = false -> unescape_newlines key = key.
Proof.
  induction key as [| c | c d s IH IH'] using two_steps.
  - reflexivity.
  - intros _. destruct c as [[] [] [] [] [] [] [] []]; reflexivity.
  - cbn [includes]. rewrite prefix_pair.
    destruct (Ascii.eqb_spec c "\") as [-> | Hc].
    + cbn [andb String.prefix]. rewrite unescape_backslash.
      destruct (ascii_dec "n" d) as [<- | Hd]; [now destruct s |].
      intros H. apply IH' in H. rewrite H.
      assert (Ascii.eqb d "n" = false) as -> by (apply Ascii.eqb_neq; congruence).
      reflexivity.
    + cbn [andb]. intros H. rewrite unescape_other by exact Hc. now rewrite (IH' H).
Qed.

Lemma append_cons (c : ascii) (a b : string) : String c a +:+ b = String c (a +:+ b).
Proof. reflexivity. Qed.

Lemma unescape_around_pair (a b : string) :
  unescape_newlines (a +:+ "\n" +:+ b)
  = unescape_newlines a +:+ String "010" (unescape_newlines b).
Proof.
  induction a as [| c | c d s IH IH'] using two_steps.
  - reflexivity.
  - destruct (Ascii.eqb_spec c "\") as [-> | Hc]; [reflexivity |].
    rewrite append_cons, !unescape_other by exact Hc. reflexivity.
  - rewrite !append_cons in *.
    destruct (Ascii.eqb_spec c "\") as [-> | Hc].
    + rewrite !unescape_backslash.
      destruct (Ascii.eqb d "n"); rewrite append_cons; [now rewrite IH | now rewrite IH'].
    + rewrite !(unescape_other c) by exact Hc.
      rewrite append_cons. now rewrite IH'.
Qed.

End PrivateKey.

(** X18.  The private key, as each version reads it at its start: after
    the replacement no backslash is followed by the letter n; a key is left
    as it is exactly when it holds no such pair; lines that were joined by
    that pair come out joined by line feeds; and an unset variable gives
    undefined, not an exception. *)
Theorem private_key_newlines :
  (forall key, includes (Init.unescape_newlines key) "\n" = false)
  /\ (forall key, Init.unescape_newlines key = key <-> includes key "\n" = false)
  /\ (forall lines,
        Init.privateKey (Some (JSON.join "\n" lines))
        = Some (JSON.join (String "010" "") (map Init.unescape_newlines lines)))
  /\ Init.privateKey None = None.
Proof.
  split; [exact unescaped_has_no_pair |]. split; [| split; [| reflexivity]].
  - intros key. split; [| apply unescape_without_pair].
    intros <-. apply unescaped_has_no_pair.
  - intros lines. unfold Init.privateKey. cbn [fmap option_fmap option_map]. f_equal.
    induction lines as [|line lines IH]; [reflexivity |].
    destruct lines as [|line' lines]; [reflexivity |].
    change (JSON.join "\n" (line :: line' :: lines))
      with (line +:+ "\n" +:+ JSON.join "\n" (line' :: lines)).
    rewrite unescape_around_pair, IH. reflexivity.
Qed.
